(** * The stock ledger of [inventory_system.py]

    A shallow embedding of the module: its global [STOCK_DATA], the
    functions [add_item], [remove_item], [get_qty], [load_data],
    [save_data] and [check_low_items], and the part of the Python run time
    they rest on (dynamic values, exceptions, text files, the [json]
    encoder and decoder).

    Conventions of the model.
    - A Python [str] is the list of its code points.
    - A Python [int] is a [Z]; [bool] is kept apart from [int] but passes
      [isinstance(_, int)], as in Python.
    - Binary floating point is a parameter ([PyFloat]): the functions are
      written once for every implementation of it.
    - A [dict] is the list of its items in insertion order; its keys are
      strings, which is all [json.load] and [add_item] ever produce.
    - [logging] calls do not touch [STOCK_DATA] and are left out; the
      optional [logs] list of [add_item] has a function of its own,
      [add_item_logs], and [print_data] returns the text it writes.
    - A file system is what [open], reading and writing answer at each
      path: the file or the exception on reading, and on writing success
      or the way it fails.
    - The console is a parameter ([Console]): the code points its encoder
      takes. The stream itself is taken to be open and working.
    - Interpreter resource limits (recursion depth, the digit limit of
      [int] conversions) are not modelled. *)

From Stdlib Require Import ZArith NArith List Bool Lia String Ascii.
From Stdlib Require Import Decimal DecimalFacts DecimalPos DecimalN DecimalZ.
Import ListNotations.

Local Open Scope Z_scope.

(* ===================================================================== *)
(** ** Text *)

Definition codepoint := N.
Definition pystr := list codepoint.

(** An ASCII literal as a Python string. *)
Definition str (s : string) : pystr :=
  map N_of_ascii (list_ascii_of_string s).

(** A text between quotation marks. *)
Definition quoted (s : pystr) : pystr := 34%N :: s ++ [34%N].

Fixpoint pystr_eqb (a b : pystr) : bool :=
  match a, b with
  | [], [] => true
  | x :: a', y :: b' => N.eqb x y && pystr_eqb a' b'
  | _, _ => false
  end.

Fixpoint starts_with (p s : pystr) : bool :=
  match p, s with
  | [], _ => true
  | x :: p', y :: s' => N.eqb x y && starts_with p' s'
  | _ :: _, [] => false
  end.

(** [p in s] for two strings. *)
Fixpoint is_substring (p s : pystr) : bool :=
  starts_with p s ||
  match s with
  | [] => false
  | _ :: s' => is_substring p s'
  end.

(* ===================================================================== *)
(** ** Floating point, as a parameter *)

Class PyFloat := {
  pyfloat : Type;
  (** [float(text)] for the text of a JSON number *)
  float_of_decimal : Decimal.decimal -> pyfloat;
  float_nan : pyfloat;
  float_inf : pyfloat;
  float_neg_inf : pyfloat;
  (** the text [json.dump] writes for a float *)
  float_json : pyfloat -> pystr;
  (** [f + n] and [f - n] for an [int] n; [None] is [OverflowError] *)
  float_add_int : pyfloat -> Z -> option pyfloat;
  float_sub_int : pyfloat -> Z -> option pyfloat;
  (** [f < n] and [f <= n] for an [int] n *)
  float_lt_int : pyfloat -> Z -> bool;
  float_le_int : pyfloat -> Z -> bool
}.

(** Decimal digits, as [int.__repr__] writes them. *)
Fixpoint uint_text (u : uint) : pystr :=
  match u with
  | Nil => []
  | D0 u' => 48%N :: uint_text u'
  | D1 u' => 49%N :: uint_text u'
  | D2 u' => 50%N :: uint_text u'
  | D3 u' => 51%N :: uint_text u'
  | D4 u' => 52%N :: uint_text u'
  | D5 u' => 53%N :: uint_text u'
  | D6 u' => 54%N :: uint_text u'
  | D7 u' => 55%N :: uint_text u'
  | D8 u' => 56%N :: uint_text u'
  | D9 u' => 57%N :: uint_text u'
  end.

Definition int_text (i : Decimal.int) : pystr :=
  match i with
  | Pos u => uint_text u
  | Neg u => 45%N :: uint_text u
  end.

Definition int_repr (z : Z) : pystr := int_text (Z.to_int z).

(** Exact decimal arithmetic: an instance on which the model can be run.
    [XDec m e] is the number [m * 10^e]. *)
Inductive xfloat :=
| XNaN
| XInf (negative : bool)
| XDec (m e : Z).

Definition xfloat_of_decimal (d : Decimal.decimal) : xfloat :=
  match d with
  | Decimal i f =>
      XDec (Z.of_int (app_int i f)) (- Z.of_nat (nb_digits f))
  | DecimalExp i f e =>
      XDec (Z.of_int (app_int i f)) (Z.of_int e - Z.of_nat (nb_digits f))
  end.

Definition xfloat_text (x : xfloat) : pystr :=
  match x with
  | XNaN => str "NaN"
  | XInf false => str "Infinity"
  | XInf true => str "-Infinity"
  | XDec m e => int_repr m ++ str "e" ++ int_repr e
  end.

Definition xfloat_shift (x : xfloat) (n : Z) : option xfloat :=
  match x with
  | XDec m e =>
      if 0 <=? e then Some (XDec (m * 10 ^ e + n) 0)
      else Some (XDec (m + n * 10 ^ (- e)) e)
  | _ => Some x
  end.

Definition xfloat_cmp (x : xfloat) (n : Z) : option comparison :=
  match x with
  | XNaN => None
  | XInf true => Some Lt
  | XInf false => Some Gt
  | XDec m e =>
      if 0 <=? e then Some (m * 10 ^ e ?= n)
      else Some (m ?= n * 10 ^ (- e))
  end.

Definition exact_float : PyFloat := {|
  pyfloat := xfloat;
  float_of_decimal := xfloat_of_decimal;
  float_nan := XNaN;
  float_inf := XInf false;
  float_neg_inf := XInf true;
  float_json := xfloat_text;
  float_add_int := xfloat_shift;
  float_sub_int x n := xfloat_shift x (- n);
  float_lt_int x n :=
    match xfloat_cmp x n with Some Lt => true | _ => false end;
  float_le_int x n :=
    match xfloat_cmp x n with Some Lt | Some Eq => true | _ => false end
|}.

(* ===================================================================== *)
(** ** Exceptions *)

Inductive exn :=
| AttributeError
| TypeError
| KeyError
| OverflowError
| FileNotFoundError
| OSError              (* any other failure of [open] or of the device *)
| UnicodeDecodeError
| JSONDecodeError
| RecursionError
| ValueError           (* [ValueError] itself, not one of its subclasses *)
| UnicodeEncodeError.


Inductive result (A : Type) :=
| Ok (a : A)
| Raise (e : exn).

Arguments Ok {A} a.
Arguments Raise {A} e.

(* ===================================================================== *)
(** ** JSON text: strings, white space and digits *)

Definition hex_digit (n : N) : codepoint :=
  if (n <? 10)%N then (48 + n)%N else (87 + n)%N.

(** ['{0:04x}'.format(n)] *)
Definition hex4 (n : N) : pystr :=
  [hex_digit (N.land (N.shiftr n 12) 15); hex_digit (N.land (N.shiftr n 8) 15);
   hex_digit (N.land (N.shiftr n 4) 15); hex_digit (N.land n 15)].

(** One character of [encode_basestring_ascii]: printable ASCII stays,
    the rest is escaped, above the basic plane as a surrogate pair. *)
Definition escape_char (c : codepoint) : pystr :=
  if (c =? 34)%N then [92; 34]%N                     (* quotation mark *)
  else if (c =? 92)%N then [92; 92]%N                (* reverse solidus *)
  else if (c =? 10)%N then [92; 110]%N               (* line feed *)
  else if (c =? 13)%N then [92; 114]%N               (* carriage return *)
  else if (c =? 9)%N then [92; 116]%N                (* tab *)
  else if (c =? 8)%N then [92; 98]%N                 (* backspace *)
  else if (c =? 12)%N then [92; 102]%N               (* form feed *)
  else if ((32 <=? c) && (c <=? 126))%N then [c]
  else if (c <? 65536)%N then 92%N :: 117%N :: hex4 c
  else
    let n := (c - 65536)%N in
    let s1 := N.lor 55296 (N.land (N.shiftr n 10) 1023) in
    let s2 := N.lor 56320 (N.land n 1023) in
    (92%N :: 117%N :: hex4 s1) ++ (92%N :: 117%N :: hex4 s2).

Definition escape (s : pystr) : pystr := flat_map escape_char s.

Definition encode_basestring_ascii (s : pystr) : pystr :=
  34%N :: escape s ++ [34%N].

Inductive parsed (A : Type) :=
| Parsed (a : A) (rest : pystr)
| Invalid
| OutOfFuel.

Arguments Parsed {A} a rest.
Arguments Invalid {A}.
Arguments OutOfFuel {A}.

Definition is_ws (c : codepoint) : bool :=
  ((c =? 32) || (c =? 9) || (c =? 10) || (c =? 13))%N.

Fixpoint skip_ws (s : pystr) : pystr :=
  match s with
  | c :: s' => if is_ws c then skip_ws s' else s
  | [] => []
  end.

Definition digit (c : codepoint) : option (uint -> uint) :=
  if (c =? 48)%N then Some D0 else if (c =? 49)%N then Some D1
  else if (c =? 50)%N then Some D2 else if (c =? 51)%N then Some D3
  else if (c =? 52)%N then Some D4 else if (c =? 53)%N then Some D5
  else if (c =? 54)%N then Some D6 else if (c =? 55)%N then Some D7
  else if (c =? 56)%N then Some D8 else if (c =? 57)%N then Some D9
  else None.

(** The longest run of digits at the head of [s]. *)
Fixpoint take_digits (s : pystr) : uint * pystr :=
  match s with
  | c :: s' =>
      match digit c with
      | Some d => let (u, r) := take_digits s' in (d u, r)
      | None => (Nil, s)
      end
  | [] => (Nil, [])
  end.

(** At least one digit. *)
Definition take_digits1 (s : pystr) : option (uint * pystr) :=
  match s with
  | c :: _ =>
      match digit c with
      | Some _ => Some (take_digits s)
      | None => None
      end
  | [] => None
  end.

(** [0|[1-9][0-9]*] *)
Definition lex_int_part (s : pystr) : option (uint * pystr) :=
  match s with
  | c :: s' => if (c =? 48)%N then Some (D0 Nil, s') else take_digits1 s
  | [] => None
  end.

(** [(\.[0-9]+)?] *)
Definition lex_frac (s : pystr) : option (uint * pystr) :=
  match s with
  | c :: s' => if (c =? 46)%N then take_digits1 s' else None
  | [] => None
  end.

(** [([eE][-+]?[0-9]+)?] *)
Definition lex_exp (s : pystr) : option (Decimal.int * pystr) :=
  match s with
  | c :: s1 =>
      if ((c =? 101) || (c =? 69))%N then
        match s1 with
        | sg :: s2 =>
            if (sg =? 43)%N then
              match take_digits1 s2 with
              | Some (u, r) => Some (Pos u, r)
              | None => None
              end
            else if (sg =? 45)%N then
              match take_digits1 s2 with
              | Some (u, r) => Some (Neg u, r)
              | None => None
              end
            else
              match take_digits1 s1 with
              | Some (u, r) => Some (Pos u, r)
              | None => None
              end
        | [] => None
        end
      else None
  | [] => None
  end.

Definition hex_value (c : codepoint) : option N :=
  if ((48 <=? c) && (c <=? 57))%N then Some (c - 48)%N
  else if ((97 <=? c) && (c <=? 102))%N then Some (c - 87)%N
  else if ((65 <=? c) && (c <=? 70))%N then Some (c - 55)%N
  else None.

(** The four hexadecimal digits after [\u]. *)
Definition decode_uXXXX (a b c d : codepoint) : option N :=
  match hex_value a, hex_value b, hex_value c, hex_value d with
  | Some x, Some y, Some z, Some w =>
      Some (N.lor (N.shiftl x 12) (N.lor (N.shiftl y 8) (N.lor (N.shiftl z 4) w)))
  | _, _, _, _ => None
  end.

(** The characters of [BACKSLASH]. *)
Definition backslash (c : codepoint) : option codepoint :=
  if (c =? 34)%N then Some 34%N
  else if (c =? 92)%N then Some 92%N
  else if (c =? 47)%N then Some 47%N
  else if (c =? 98)%N then Some 8%N
  else if (c =? 102)%N then Some 12%N
  else if (c =? 110)%N then Some 10%N
  else if (c =? 114)%N then Some 13%N
  else if (c =? 116)%N then Some 9%N
  else None.

Definition is_high_surrogate (u : N) : bool := ((55296 <=? u) && (u <=? 56319))%N.
Definition is_low_surrogate (u : N) : bool := ((56320 <=? u) && (u <=? 57343))%N.

Definition prepend (c : codepoint) (r : parsed pystr) : parsed pystr :=
  match r with
  | Parsed t rest => Parsed (c :: t) rest
  | other => other
  end.

(** [scanstring], from the character after the opening quote. *)
Fixpoint scanstring (s : pystr) : parsed pystr :=
  match s with
  | [] => Invalid                               (* unterminated *)
  | c :: s1 =>
      if (c =? 34)%N then Parsed [] s1
      else if (c =? 92)%N then
        match s1 with
        | [] => Invalid
        | e :: s2 =>
            if (e =? 117)%N then
              match s2 with
              | h1 :: h2 :: h3 :: h4 :: s6 =>
                  match decode_uXXXX h1 h2 h3 h4 with
                  | None => Invalid
                  | Some uni =>
                      if is_high_surrogate uni then
                        match s6 with
                        | b :: u :: s8 =>
                            if ((b =? 92) && (u =? 117))%N then
                              match s8 with
                              | l1 :: l2 :: l3 :: l4 :: s12 =>
                                  match decode_uXXXX l1 l2 l3 l4 with
                                  | None => Invalid
                                  | Some uni2 =>
                                      if is_low_surrogate uni2 then
                                        prepend
                                          (65536 + N.lor (N.shiftl (uni - 55296) 10)
                                                         (uni2 - 56320))%N
                                          (scanstring s12)
                                      else prepend uni (scanstring s6)
                                  end
                              | _ => Invalid
                              end
                            else prepend uni (scanstring s6)
                        | _ => prepend uni (scanstring s6)
                        end
                      else prepend uni (scanstring s6)
                  end
              | _ => Invalid
              end
            else
              match backslash e with
              | Some ch => prepend ch (scanstring s2)
              | None => Invalid
              end
        end
      else if (c <? 32)%N then Invalid            (* control character *)
      else prepend c (scanstring s1)
  end.

(* ===================================================================== *)
(** ** Files *)

(** A string that [open] refuses before it looks at the disk. *)
Inductive bad_path :=
| EmbeddedNul                (* a NUL character in it: ValueError *)
| NotEncodable.              (* a code point the file system encoding does
                                not take, as a lone surrogate:
                                UnicodeEncodeError *)

Definition bad_path_exn (b : bad_path) : exn :=
  match b with
  | EmbeddedNul => ValueError
  | NotEncodable => UnicodeEncodeError
  end.

(** What [open(path, "r", encoding="utf-8")] and reading find. *)
Inductive fentry :=
| NoFile                     (* FileNotFoundError *)
| Unreadable                 (* another OSError: a directory, no permission *)
| Undecodable                (* bytes that are not UTF-8 *)
| FileText (text : pystr)
| NotAPath (b : bad_path).

(** How writing a file fails where it does. *)
Inductive wfailure :=
| OpenRefused                (* [open] raises an OSError: no permission, a
                                directory, a read-only disk; the file is
                                not touched *)
| NoPath (b : bad_path)      (* [open] refuses the string *)
| Cut (n : nat).             (* [open] succeeds and empties the file, then
                                the device fails with an OSError; the
                                first [n] characters of the text, at most,
                                are in the file *)

Record filesystem := {
  fs_entry : pystr -> fentry;
  (** whether the file can be written: [open(path, "w")], the writes and
      the closing all succeed *)
  fs_writable : pystr -> bool;
  (** what happens when it cannot *)
  fs_failure : pystr -> wfailure
}.

(** A disk without files, and a disk with one text file; both writable. *)
Definition empty_disk : filesystem :=
  {| fs_entry := fun _ => NoFile; fs_writable := fun _ => true;
     fs_failure := fun _ => OpenRefused |}.

Definition disk_with (file text : pystr) : filesystem :=
  {| fs_entry := fun p => if pystr_eqb p file then FileText text else NoFile;
     fs_writable := fun _ => true;
     fs_failure := fun _ => OpenRefused |}.

(** A disk with one path in the given state; writable. *)
Definition disk_holding (file : pystr) (entry : fentry) : filesystem :=
  {| fs_entry := fun p => if pystr_eqb p file then entry else NoFile;
     fs_writable := fun _ => true;
     fs_failure := fun _ => OpenRefused |}.

(** A disk on which no file can be opened for writing, every path in the
    given state. *)
Definition locked_disk (entry : fentry) : filesystem :=
  {| fs_entry := fun _ => entry; fs_writable := fun _ => false;
     fs_failure := fun _ => OpenRefused |}.


(* ===================================================================== *)
(** ** The console *)

(** The characters [print] always gets through: the end of line and the
    printable ASCII characters. *)
Definition plain (c : codepoint) : bool :=
  ((c =? 10) || ((32 <=? c) && (c <? 127)))%N.

(** The encoder of [sys.stdout], by the code points it takes besides the
    plain ones, which the encodings Python offers for a console all take;
    for the others it raises [UnicodeEncodeError]. *)
Class Console := {
  console_encodes : codepoint -> bool
}.

Definition console_accepts {C : Console} (c : codepoint) : bool :=
  plain c || console_encodes c.

Definition is_surrogate (c : codepoint) : bool :=
  ((55296 <=? c) && (c <=? 57343))%N.

(** A console in UTF-8 with strict errors, the usual one: every code
    point but the surrogates. *)
Definition utf8_console : Console :=
  {| console_encodes := fun c => negb (is_surrogate c) |}.

Set Warnings "-register-all".

Section Ledger.

Context {F : PyFloat}.

(* ===================================================================== *)
(** ** Dynamic values and exceptions *)

(** The values [json.load] can build and callers can pass. *)
Inductive pyval :=
| PNone
| PBool (b : bool)
| PInt (z : Z)
| PFloat (f : pyfloat)
| PStr (s : pystr)
| PList (l : list pyval)
| PDict (d : list (pystr * pyval)).

Definition dict := list (pystr * pyval).

(** [isinstance(v, int)] together with the integer: [bool] derives from
    [int], with [True == 1] and [False == 0]. *)
Definition as_int (v : pyval) : option Z :=
  match v with
  | PInt z => Some z
  | PBool true => Some 1
  | PBool false => Some 0
  | _ => None
  end.

Definition of_float (r : option pyfloat) : result pyval :=
  match r with
  | Some f => Ok (PFloat f)
  | None => Raise OverflowError
  end.

(** [v + n], [v - n], [v < n] and [v <= n] for an [int] n. *)
Definition py_add_int (v : pyval) (n : Z) : result pyval :=
  match v with
  | PInt _ | PBool _ =>
      match as_int v with Some z => Ok (PInt (z + n)) | None => Raise TypeError end
  | PFloat f => of_float (float_add_int f n)
  | _ => Raise TypeError
  end.

Definition py_sub_int (v : pyval) (n : Z) : result pyval :=
  match v with
  | PInt _ | PBool _ =>
      match as_int v with Some z => Ok (PInt (z - n)) | None => Raise TypeError end
  | PFloat f => of_float (float_sub_int f n)
  | _ => Raise TypeError
  end.

Definition py_lt_int (v : pyval) (n : Z) : result bool :=
  match v with
  | PInt _ | PBool _ =>
      match as_int v with Some z => Ok (z <? n) | None => Raise TypeError end
  | PFloat f => Ok (float_lt_int f n)
  | _ => Raise TypeError
  end.

Definition py_le_int (v : pyval) (n : Z) : result bool :=
  match v with
  | PInt _ | PBool _ =>
      match as_int v with Some z => Ok (z <=? n) | None => Raise TypeError end
  | PFloat f => Ok (float_le_int f n)
  | _ => Raise TypeError
  end.

(* ===================================================================== *)
(** ** Dictionaries *)

Fixpoint dict_lookup (k : pystr) (d : dict) : option pyval :=
  match d with
  | [] => None
  | (k', v) :: d' => if pystr_eqb k k' then Some v else dict_lookup k d'
  end.

Definition dict_mem (k : pystr) (d : dict) : bool :=
  match dict_lookup k d with Some _ => true | None => false end.

(** [d[k] = v]: a key already there keeps its place, a new key goes last. *)
Fixpoint dict_set (k : pystr) (v : pyval) (d : dict) : dict :=
  match d with
  | [] => [(k, v)]
  | (k', v') :: d' =>
      if pystr_eqb k k' then (k', v) :: d' else (k', v') :: dict_set k v d'
  end.

(** [del d[k]] for a key that is there. *)
Definition dict_del (k : pystr) (d : dict) : dict :=
  filter (fun kv => negb (pystr_eqb k (fst kv))) d.

(** The operations the module applies to [STOCK_DATA], on whatever value
    the global holds; the key is a string. *)

(** [k in c] *)
Definition py_contains (c : pyval) (k : pystr) : result bool :=
  match c with
  | PDict d => Ok (dict_mem k d)
  | PList l =>
      Ok (existsb (fun v => match v with
                            | PStr s => pystr_eqb k s
                            | _ => false
                            end) l)
  | PStr s => Ok (is_substring k s)
  | _ => Raise TypeError
  end.

(** [c[k]] *)
Definition py_getitem (c : pyval) (k : pystr) : result pyval :=
  match c with
  | PDict d =>
      match dict_lookup k d with
      | Some v => Ok v
      | None => Raise KeyError
      end
  | _ => Raise TypeError
  end.

(** [c[k] = v] *)
Definition py_setitem (c : pyval) (k : pystr) (v : pyval) : result pyval :=
  match c with
  | PDict d => Ok (PDict (dict_set k v d))
  | _ => Raise TypeError
  end.

(** [del c[k]] *)
Definition py_delitem (c : pyval) (k : pystr) : result pyval :=
  match c with
  | PDict d =>
      if dict_mem k d then Ok (PDict (dict_del k d)) else Raise KeyError
  | _ => Raise TypeError
  end.

(** [c.get(k, default)] *)
Definition py_get (c : pyval) (k : pystr) (default : pyval) : result pyval :=
  match c with
  | PDict d =>
      match dict_lookup k d with
      | Some v => Ok v
      | None => Ok default
      end
  | _ => Raise AttributeError
  end.

(** [c.items()] *)
Definition py_items (c : pyval) : result (list (pystr * pyval)) :=
  match c with
  | PDict d => Ok d
  | _ => Raise AttributeError
  end.

(* ===================================================================== *)
(** ** [json.dump(obj, f, indent=2)]: the text written *)

(** ['\n' + ' ' * (2 * level)] *)
Definition newline_indent (level : nat) : pystr :=
  10%N :: repeat 32%N (2 * level).

(** The chunks between the brackets: the separator goes before every
    chunk but the first. *)
Fixpoint join (separator : pystr) (chunks : list pystr) : pystr :=
  match chunks with
  | [] => []
  | [chunk] => chunk
  | chunk :: chunks' => chunk ++ separator ++ join separator chunks'
  end.

Fixpoint encode (level : nat) (v : pyval) : pystr :=
  match v with
  | PNone => str "null"
  | PBool true => str "true"
  | PBool false => str "false"
  | PInt z => int_repr z
  | PFloat f => float_json f
  | PStr s => encode_basestring_ascii s
  | PList [] => str "[]"
  | PList l =>
      str "[" ++ newline_indent (S level)
      ++ join (str "," ++ newline_indent (S level)) (map (encode (S level)) l)
      ++ newline_indent level ++ str "]"
  | PDict [] => str "{}"
  | PDict d =>
      str "{" ++ newline_indent (S level)
      ++ join (str "," ++ newline_indent (S level))
           (map (fun kv => encode_basestring_ascii (fst kv) ++ str ": "
                           ++ encode (S level) (snd kv)) d)
      ++ newline_indent level ++ str "}"
  end.

Definition json_dumps (v : pyval) : pystr := encode 0 v.

(* ===================================================================== *)
(** ** [json.load]: the decoder *)

(** A number after its sign: [int(text)] without fraction and exponent,
    [float(text)] otherwise. *)
Definition lex_unsigned (negative : bool) (s : pystr)
  : option (pyval * pystr) :=
  match lex_int_part s with
  | None => None
  | Some (u, s1) =>
      let i := if negative then Neg u else Pos u in
      match lex_frac s1 with
      | Some (f, s2) =>
          match lex_exp s2 with
          | Some (e, s3) => Some (PFloat (float_of_decimal (DecimalExp i f e)), s3)
          | None => Some (PFloat (float_of_decimal (Decimal i f)), s2)
          end
      | None =>
          match lex_exp s1 with
          | Some (e, s3) => Some (PFloat (float_of_decimal (DecimalExp i Nil e)), s3)
          | None => Some (PInt (Z.of_int i), s1)
          end
      end
  end.

(** A number: an optional minus sign, an integer part, an optional
    fraction, an optional exponent. *)
Definition lex_number (s : pystr) : option (pyval * pystr) :=
  match s with
  | c :: s' => if (c =? 45)%N then lex_unsigned true s' else lex_unsigned false s
  | [] => None
  end.

Definition or_else {A : Type} (a b : option A) : option A :=
  match a with
  | Some _ => a
  | None => b
  end.

Definition literal (lit : string) (v : pyval) (s : pystr)
  : option (pyval * pystr) :=
  if starts_with (str lit) s then Some (v, skipn (List.length (str lit)) s)
  else None.

(** What [scan_once] accepts besides strings, objects and arrays, in the
    order it tries them. *)
Definition scan_atom (s : pystr) : option (pyval * pystr) :=
  or_else (literal "null" PNone s)
 (or_else (literal "true" (PBool true) s)
 (or_else (literal "false" (PBool false) s)
 (or_else (lex_number s)
 (or_else (literal "NaN" (PFloat float_nan) s)
 (or_else (literal "Infinity" (PFloat float_inf) s)
          (literal "-Infinity" (PFloat float_neg_inf) s)))))).

(** [scan_once], with [JSONObject] and [JSONArray]. [object_members]
    starts after the opening quote of a key and [array_elems] at the first
    character of an element; both carry what they have read so far. *)
Fixpoint scan_once (fuel : nat) (s : pystr) {struct fuel} : parsed pyval :=
  match fuel with
  | O => OutOfFuel
  | S fuel' =>
      match s with
      | [] => Invalid
      | c :: s1 =>
          if (c =? 34)%N then
            match scanstring s1 with
            | Parsed t rest => Parsed (PStr t) rest
            | Invalid => Invalid
            | OutOfFuel => OutOfFuel
            end
          else if (c =? 123)%N then                 (* left brace *)
            match skip_ws s1 with
            | c1 :: s2 =>
                if (c1 =? 125)%N then Parsed (PDict []) s2
                else if (c1 =? 34)%N then object_members fuel' s2 []
                else Invalid
            | [] => Invalid
            end
          else if (c =? 91)%N then                  (* left bracket *)
            match skip_ws s1 with
            | c1 :: s2 =>
                if (c1 =? 93)%N then Parsed (PList []) s2
                else array_elems fuel' (c1 :: s2) []
            | [] => Invalid
            end
          else
            match scan_atom s with
            | Some (v, rest) => Parsed v rest
            | None => Invalid
            end
      end
  end

with object_members (fuel : nat) (s : pystr) (pairs : dict) {struct fuel}
  : parsed pyval :=
  match fuel with
  | O => OutOfFuel
  | S fuel' =>
      match scanstring s with
      | Parsed key s1 =>
          match skip_ws s1 with
          | c :: s2 =>
              if (c =? 58)%N then                   (* colon *)
                match scan_once fuel' (skip_ws s2) with
                | Parsed value s3 =>
                    let pairs' := dict_set key value pairs in
                    match skip_ws s3 with
                    | c' :: s4 =>
                        if (c' =? 125)%N then Parsed (PDict pairs') s4
                        else if (c' =? 44)%N then   (* comma *)
                          match skip_ws s4 with
                          | q :: s5 =>
                              if (q =? 34)%N then object_members fuel' s5 pairs'
                              else Invalid
                          | [] => Invalid
                          end
                        else Invalid
                    | [] => Invalid
                    end
                | Invalid => Invalid
                | OutOfFuel => OutOfFuel
                end
              else Invalid
          | [] => Invalid
          end
      | Invalid => Invalid
      | OutOfFuel => OutOfFuel
      end
  end

with array_elems (fuel : nat) (s : pystr) (values : list pyval) {struct fuel}
  : parsed pyval :=
  match fuel with
  | O => OutOfFuel
  | S fuel' =>
      match scan_once fuel' s with
      | Parsed value s1 =>
          let values' := values ++ [value] in
          match skip_ws s1 with
          | c :: s2 =>
              if (c =? 93)%N then Parsed (PList values') s2
              else if (c =? 44)%N then array_elems fuel' (skip_ws s2) values'
              else Invalid
          | [] => Invalid
          end
      | Invalid => Invalid
      | OutOfFuel => OutOfFuel
      end
  end.

(** Fuel that never runs out (lemma [scan_once_fuel]). *)
Definition fuel_for (s : pystr) : nat := 2 * List.length s + 1.

(** [json.loads(s)]: one value between optional white space. *)
Definition json_loads (s : pystr) : result pyval :=
  if starts_with [65279%N] s then Raise JSONDecodeError   (* byte order mark *)
  else
    match scan_once (fuel_for s) (skip_ws s) with
    | Parsed v rest =>
        match skip_ws rest with
        | [] => Ok v
        | _ :: _ => Raise JSONDecodeError                 (* extra data *)
        end
    | Invalid => Raise JSONDecodeError
    | OutOfFuel => Raise RecursionError
    end.

(* ===================================================================== *)
(** ** The process: the global and the files *)

Record world := {
  STOCK_DATA : pyval;
  disk : filesystem
}.

(** State that survives an exception, as Python's does. *)
Definition M (A : Type) : Type := world -> result A * world.

Definition ret {A : Type} (a : A) : M A := fun w => (Ok a, w).

Definition bind {A B : Type} (m : M A) (k : A -> M B) : M B :=
  fun w =>
    match m w with
    | (Ok a, w') => k a w'
    | (Raise e, w') => (Raise e, w')
    end.

Definition lift {A : Type} (r : result A) : M A := fun w => (r, w).

(** [try: body except ...:], the handler chosen by the exception. *)
Definition try_except {A : Type} (body : M A) (handlers : exn -> option (M A))
  : M A :=
  fun w =>
    match body w with
    | (Ok a, w') => (Ok a, w')
    | (Raise e, w') =>
        match handlers e with
        | Some h => h w'
        | None => (Raise e, w')
        end
    end.

Definition get_stock : M pyval := fun w => (Ok (STOCK_DATA w), w).

Definition set_stock (v : pyval) : M unit :=
  fun w => (Ok tt, {| STOCK_DATA := v; disk := disk w |}).

Definition read_text (file : pystr) : M pystr :=
  fun w =>
    match fs_entry (disk w) file with
    | NoFile => (Raise FileNotFoundError, w)
    | Unreadable => (Raise OSError, w)
    | Undecodable => (Raise UnicodeDecodeError, w)
    | FileText text => (Ok text, w)
    | NotAPath b => (Raise (bad_path_exn b), w)
    end.



Notation "x <- m ;; k" := (bind m (fun x => k))
  (at level 61, m at next level, right associativity).
Notation "m ;;; k" := (bind m (fun _ => k))
  (at level 61, right associativity).

(* ===================================================================== *)
(** ** The module's functions *)

Definition add_item (item qty : pyval) : M unit :=
  match item with
  | PStr name =>
      match name with
      | [] => ret tt                                   (* not item *)
      | _ :: _ =>
          match as_int qty with
          | None => ret tt                             (* not isinstance(qty, int) *)
          | Some n =>
              if n <? 0 then ret tt
              else
                stock <- get_stock ;;
                current <- lift (py_get stock name (PInt 0)) ;;
                total <- lift (py_add_int current n) ;;
                stock' <- lift (py_setitem stock name total) ;;
                set_stock stock'
          end
      end
  | _ => ret tt                                        (* not isinstance(item, str) *)
  end.

Definition remove_item (item : pystr) (qty : pyval) : M bool :=
  try_except
    (stock <- get_stock ;;
     present <- lift (py_contains stock item) ;;
     if negb present then ret false
     else
       match as_int qty with
       | None => ret false
       | Some n =>
           if n <? 0 then ret false
           else
             current <- lift (py_getitem stock item) ;;
             reduced <- lift (py_sub_int current n) ;;
             stock1 <- lift (py_setitem stock item reduced) ;;
             set_stock stock1 ;;;
             left <- lift (py_getitem stock1 item) ;;
             depleted <- lift (py_le_int left 0) ;;
             if depleted then
               stock2 <- lift (py_delitem stock1 item) ;;
               set_stock stock2 ;;;
               ret true
             else ret true
       end)
    (fun e => match e with
              | KeyError => Some (ret false)
              | _ => None
              end).

Definition get_qty (item : pystr) : M pyval :=
  stock <- get_stock ;;
  present <- lift (py_contains stock item) ;;
  if negb present then ret (PInt 0)
  else lift (py_getitem stock item).

Definition load_data (file : pystr) : M bool :=
  try_except
    (text <- read_text file ;;
     data <- lift (json_loads text) ;;
     set_stock data ;;;
     ret true)
    (fun e => match e with
              | FileNotFoundError => Some (set_stock (PDict []) ;;; ret false)
              | JSONDecodeError => Some (ret false)
              | _ => None
              end).


(** The loop of [check_low_items]. *)
Fixpoint low_items (items : list (pystr * pyval)) (threshold : Z)
    (found : list pystr) : result (list pystr) :=
  match items with
  | [] => Ok found
  | (item, quantity) :: items' =>
      match py_lt_int quantity threshold with
      | Ok true => low_items items' threshold (found ++ [item])
      | Ok false => low_items items' threshold found
      | Raise e => Raise e
      end
  end.

Definition check_low_items (threshold : Z) : M (list pystr) :=
  stock <- get_stock ;;
  items <- lift (py_items stock) ;;
  lift (low_items items threshold []).

(* ===================================================================== *)
(** ** Typed ledgers and sequences of calls *)

(** A ledger as the annotation [Dict[str, int]] has it. *)
Definition ledger := list (pystr * Z).

Definition ledger_value (l : ledger) : pyval :=
  PDict (map (fun kq => (fst kq, PInt (snd kq))) l).

Definition with_stock (v : pyval) (fs : filesystem) : world :=
  {| STOCK_DATA := v; disk := fs |}.

(** The arguments [add_item] refuses, in the words of the specification:
    an empty or non-string item, a negative or non-integer quantity. *)
Definition invalid_add_args (item qty : pyval) : Prop :=
  (forall name, item <> PStr name) \/ item = PStr [] \/
  as_int qty = None \/ (exists n, as_int qty = Some n /\ n < 0).

(** The quantities [remove_item] refuses. *)
Definition invalid_quantity (qty : pyval) : Prop :=
  as_int qty = None \/ (exists n, as_int qty = Some n /\ n < 0).

(** [add_item(name, q)] for each pair, in order. *)
Fixpoint add_all (adds : list (pystr * Z)) : M unit :=
  match adds with
  | [] => ret tt
  | (name, q) :: adds' => add_item (PStr name) (PInt q) ;;; add_all adds'
  end.

(** The sum of the quantities added under [name]. *)
Fixpoint added (name : pystr) (adds : list (pystr * Z)) : Z :=
  match adds with
  | [] => 0
  | (name', q) :: adds' =>
      (if pystr_eqb name name' then q else 0) + added name adds'
  end.

(** The names whose quantity is below the threshold, in ledger order. *)
Definition low_names (l : ledger) (threshold : Z) : list pystr :=
  map fst (filter (fun kq => snd kq <? threshold) l).

(** The integer stored under a name, 0 when there is none. *)
Definition stored (name : pystr) (d : dict) : Z :=
  match dict_lookup name d with
  | Some (PInt q) => q
  | _ => 0
  end.

Definition int_dict (d : dict) : Prop :=
  forall k v, dict_lookup k d = Some v -> exists q, v = PInt q.

(** Every stored quantity is a strictly positive integer. *)
Definition stored_positive (v : pyval) : Prop :=
  exists d, v = PDict d /\
            Forall (fun kv => exists q, snd kv = PInt q /\ 0 < q) d.

(** The states reached from the empty ledger by [add_item], [remove_item]
    and successful [load_data]. *)
Inductive reachable : world -> Prop :=
| reach_empty fs : reachable (with_stock (PDict []) fs)
| reach_add w item qty r w' :
    reachable w -> add_item item qty w = (r, w') -> reachable w'
| reach_remove w item qty r w' :
    reachable w -> remove_item item qty w = (r, w') -> reachable w'
| reach_load w file w' :
    reachable w -> load_data file w = (Ok true, w') -> reachable w'.

(** [add_item] is about to create an entry with quantity zero. *)
Definition adds_zero_stock (item qty : pyval) (w : world) : Prop :=
  exists name d,
    item = PStr name /\ name <> [] /\ as_int qty = Some 0 /\
    STOCK_DATA w = PDict d /\ dict_mem name d = false.

(** The file, if it parses, holds strictly positive quantities. *)
Definition loads_positive (file : pystr) (w : world) : Prop :=
  forall text v,
    fs_entry (disk w) file = FileText text ->
    json_loads text = Ok v -> stored_positive v.

(** As [reachable], without the two steps that store something else than
    a positive quantity. *)
Inductive reachable_guarded : world -> Prop :=
| guarded_empty fs : reachable_guarded (with_stock (PDict []) fs)
| guarded_add w item qty r w' :
    reachable_guarded w -> ~ adds_zero_stock item qty w ->
    add_item item qty w = (r, w') -> reachable_guarded w'
| guarded_remove w item qty r w' :
    reachable_guarded w -> remove_item item qty w = (r, w') ->
    reachable_guarded w'
| guarded_load w file r w' :
    reachable_guarded w -> loads_positive file w ->
    load_data file w = (r, w') -> reachable_guarded w'.




(** A parse that does not run out of fuel and, when it succeeds, leaves
    less than it was given. *)
Definition consumes {A : Type} (s : pystr) (x : parsed A) : Prop :=
  match x with
  | Parsed _ r => (List.length r < List.length s)%nat
  | Invalid => True
  | OutOfFuel => False
  end.




(* ===================================================================== *)
(** ** The report, the log sink and the entry point *)

Context {C : Console}.

(** An exception that left [print_data] or [main]. *)
Inductive raised :=
| Raised (e : exn).

(** [not v] is [negb (py_truth v)]. A float is false when it equals zero,
    that is when it is [<= 0] without being [< 0]. *)
Definition py_truth (v : pyval) : bool :=
  match v with
  | PNone => false
  | PBool b => b
  | PInt z => negb (z =? 0)
  | PFloat f => negb (float_le_int f 0 && negb (float_lt_int f 0))
  | PStr s => match s with [] => false | _ :: _ => true end
  | PList l => match l with [] => false | _ :: _ => true end
  | PDict d => match d with [] => false | _ :: _ => true end
  end.

(** [format(s, "20s")] for a string: left-justified, never cut. *)
Definition ljust (width : nat) (s : pystr) : pystr :=
  s ++ repeat 32%N (width - List.length s).

(** The padding [format(n, "5d")] puts before the digits. *)
Definition rjust (width : nat) (s : pystr) : pystr :=
  repeat 32%N (width - List.length s) ++ s.

(** [format(v, "5d")]: the code [d] is refused for a [str] or a [float]
    with [ValueError], and for what has no [__format__] of its own with
    [TypeError]. *)
Definition format_5d (v : pyval) : pystr + raised :=
  match v with
  | PInt _ | PBool _ =>
      match as_int v with
      | Some z => inl (rjust 5 (int_repr z))
      | None => inr (Raised TypeError)
      end
  | PFloat _ | PStr _ => inr (Raised ValueError)
  | PNone | PList _ | PDict _ => inr (Raised TypeError)
  end.

(** Whether the console takes every character of a text. *)
Definition console_takes (text : pystr) : bool :=
  forallb console_accepts text.

(** What has been written to the console, and the exception that ended
    the writing, if any. *)
Definition printed : Type := pystr * option raised.

(** [print(text)] and what follows it. The text is encoded as a whole
    before any of it is written, then the end of line is written; when
    the console does not take the text, nothing of it is written and
    [UnicodeEncodeError] is raised. *)
Definition print (text : pystr) (next : printed) : printed :=
  if console_takes text then
    let (out, r) := next in (text ++ [10%N] ++ out, r)
  else ([], Some (Raised UnicodeEncodeError)).

(** ["=" * 40] *)
Definition banner : pystr := repeat 61%N 40.

Definition report_head : pystr :=
  [10%N] ++ banner ++ [10%N] ++ str "INVENTORY REPORT" ++ [10%N]
  ++ banner ++ [10%N].

Definition report_foot : pystr := banner ++ [10; 10]%N.

Definition report_line (item : pystr) (number : pystr) : pystr :=
  ljust 20 item ++ str " -> " ++ number ++ [10%N].

(** The loop of [print_data], and what follows it: the line is formatted,
    then printed. *)
Fixpoint report_items (items : list (pystr * pyval)) (next : printed)
    : printed :=
  match items with
  | [] => next
  | (item, quantity) :: items' =>
      match format_5d quantity with
      | inl number =>
          print (ljust 20 item ++ str " -> " ++ number)
                (report_items items' next)
      | inr e => ([], Some e)
      end
  end.

(** [print_data]: the text written to the console, as the text handed to
    it, and the exception raised, if any. The state is only read. *)
Definition print_data (w : world) : printed :=
  print ([10%N] ++ banner)
    (print (str "INVENTORY REPORT")
       (print banner
          (if negb (py_truth (STOCK_DATA w)) then
             print (str "No items in inventory")
                   (print (banner ++ [10%N]) ([], None))
           else
             match py_items (STOCK_DATA w) with
             | Raise e => ([], Some (Raised e))
             | Ok items =>
                 report_items items (print (banner ++ [10%N]) ([], None))
             end))).



(** The defaults of [load_data], [save_data] and [check_low_items]. *)
Definition default_file : pystr := str "inventory.json".



(** Calls of the two functions that change the ledger, and a run of
    them by a caller that goes on after an exception. *)
Inductive call :=
| CallAdd (item qty : pyval)
| CallRemove (item : pystr) (qty : pyval).

Definition run_call (c : call) (w : world) : world :=
  match c with
  | CallAdd item qty => snd (add_item item qty w)
  | CallRemove item qty => snd (remove_item item qty w)
  end.

Definition run_calls (cs : list call) (w : world) : world :=
  fold_left (fun w c => run_call c w) cs w.

(** A ledger in good order: distinct non-empty names, integer quantities
    that are not negative. *)
Definition tidy (d : dict) : Prop :=
  NoDup (map fst d) /\
  Forall (fun kv => fst kv <> [] /\ exists q, snd kv = PInt q /\ 0 <= q) d.

(* ===================================================================== *)
(** ** Basic facts *)

Lemma pystr_eqb_eq (a b : pystr) : pystr_eqb a b = true <-> a = b.
Proof.
  revert b; induction a as [|x a IH]; intros [|y b]; simpl; split;
    try congruence; try reflexivity.
  - intros H. apply andb_true_iff in H as [H1 H2].
    apply N.eqb_eq in H1. apply IH in H2. congruence.
  - intros H. injection H as -> ->. rewrite N.eqb_refl. simpl.
    apply IH. reflexivity.
Qed.

Lemma pystr_eqb_refl (a : pystr) : pystr_eqb a a = true.
Proof. apply pystr_eqb_eq. reflexivity. Qed.

Lemma pystr_eqb_neq (a b : pystr) : pystr_eqb a b = false <-> a <> b.
Proof.
  split.
  - intros H E. apply pystr_eqb_eq in E. congruence.
  - intros H. destruct (pystr_eqb a b) eqn:E; [|reflexivity].
    apply pystr_eqb_eq in E. contradiction.
Qed.

Lemma dict_lookup_set_same k v d : dict_lookup k (dict_set k v d) = Some v.
Proof.
  induction d as [|[k' v'] d IH]; simpl.
  - rewrite pystr_eqb_refl. reflexivity.
  - destruct (pystr_eqb k k') eqn:E; simpl; rewrite E; auto.
Qed.

Lemma dict_lookup_set_other k k' v d :
  k <> k' -> dict_lookup k (dict_set k' v d) = dict_lookup k d.
Proof.
  intros Hne. induction d as [|[k0 v0] d IH]; simpl.
  - apply pystr_eqb_neq in Hne. rewrite Hne. reflexivity.
  - destruct (pystr_eqb k' k0) eqn:E; simpl.
    + apply pystr_eqb_eq in E. subst k0.
      apply pystr_eqb_neq in Hne. rewrite Hne. reflexivity.
    + destruct (pystr_eqb k k0); auto.
Qed.

Lemma dict_lookup_del_same k d : dict_lookup k (dict_del k d) = None.
Proof.
  unfold dict_del. induction d as [|[k' v'] d IH]; simpl; auto.
  destruct (pystr_eqb k k') eqn:E; simpl; auto. rewrite E. exact IH.
Qed.

(* ===================================================================== *)
(** ** Validation in [add_item] and [remove_item] *)

(** C7. Whatever [STOCK_DATA] and the files are, [add_item] called with an
    empty or non-string item, or with a negative or non-integer quantity,
    returns normally (no exception) and leaves the whole state as it
    was. *)
Theorem add_item_invalid_unchanged (w : world) (item qty : pyval) :
  invalid_add_args item qty -> add_item item qty w = (Ok tt, w).
Proof.
  intros H. unfold add_item, ret.
  destruct item as [| | | |name| |]; try reflexivity.
  destruct name as [|c name]; [reflexivity|].
  destruct H as [H|[H|[H|[n [H Hn]]]]].
  - exfalso. apply (H (c :: name)). reflexivity.
  - discriminate H.
  - rewrite H. reflexivity.
  - rewrite H. apply Z.ltb_lt in Hn. rewrite Hn. reflexivity.
Qed.


(* ===================================================================== *)
(** ** Removal from stock *)

Lemma dict_del_set_same k v d : dict_del k (dict_set k v d) = dict_del k d.
Proof.
  unfold dict_del. induction d as [|[k' v'] d IH]; simpl.
  - rewrite pystr_eqb_refl. reflexivity.
  - destruct (pystr_eqb k k') eqn:E; simpl; rewrite E; simpl; auto.
    f_equal. exact IH.
Qed.

Lemma remove_item_absent (d : dict) (fs : filesystem) (item : pystr)
    (qty : pyval) :
  dict_mem item d = false ->
  remove_item item qty (with_stock (PDict d) fs)
  = (Ok false, with_stock (PDict d) fs).
Proof.
  intros H.
  unfold remove_item, try_except, bind, get_stock, lift, ret, with_stock.
  simpl. rewrite H. reflexivity.
Qed.

Lemma remove_item_bad_quantity (d : dict) (fs : filesystem) (item : pystr)
    (qty : pyval) :
  dict_mem item d = true -> invalid_quantity qty ->
  remove_item item qty (with_stock (PDict d) fs)
  = (Ok false, with_stock (PDict d) fs).
Proof.
  intros H Hq.
  unfold remove_item, try_except, bind, get_stock, lift, ret, with_stock.
  simpl. rewrite H. simpl.
  destruct Hq as [Hq|[n [Hq Hn]]]; rewrite Hq; [reflexivity|].
  apply Z.ltb_lt in Hn. rewrite Hn. reflexivity.
Qed.

Lemma remove_item_run (d : dict) (fs : filesystem) (item : pystr)
    (v qty : pyval) (q n : Z) :
  dict_lookup item d = Some v -> as_int v = Some q ->
  as_int qty = Some n -> 0 <= n ->
  remove_item item qty (with_stock (PDict d) fs)
  = (Ok true,
     with_stock (PDict (if q - n <=? 0 then dict_del item d
                        else dict_set item (PInt (q - n)) d)) fs).
Proof.
  intros Hl Hv Hn Hn0.
  unfold remove_item, try_except, bind, get_stock, set_stock, lift, ret,
    with_stock. simpl.
  unfold dict_mem. rewrite Hl. simpl. rewrite Hn.
  assert (Hlt : (n <? 0) = false) by (apply Z.ltb_ge; lia).
  rewrite Hlt.
  assert (Hsub : py_sub_int v n = Ok (PInt (q - n))).
  { destruct v as [|[|]|z| | | |]; simpl in *; try discriminate;
      injection Hv as <-; reflexivity. }
  rewrite Hsub. simpl. rewrite dict_lookup_set_same. simpl.
  destruct (q - n <=? 0) eqn:E; [|reflexivity].
  simpl. rewrite dict_del_set_same. reflexivity.
Qed.

(** C8. On a ledger that does not hold [item], [remove_item] returns
    [False] and changes nothing; on a ledger that holds it, a negative or
    non-integer quantity gives the same. *)
Theorem remove_item_refused (d : dict) (fs : filesystem)
    (item : pystr) (qty : pyval) :
  (dict_mem item d = false ->
   remove_item item qty (with_stock (PDict d) fs)
   = (Ok false, with_stock (PDict d) fs)) /\
  (dict_mem item d = true -> invalid_quantity qty ->
   remove_item item qty (with_stock (PDict d) fs)
   = (Ok false, with_stock (PDict d) fs)).
Proof.
  split.
  - apply remove_item_absent.
  - apply remove_item_bad_quantity.
Qed.

(** C3. When the ledger holds [item] with quantity [q > 0] and [n >= 0] is
    an integer, [remove_item(item, n)] returns [True]; with [n >= q] the
    item is deleted, with [n < q] its quantity becomes [q - n], which is
    positive. A quantity above the stock is no failure. *)
Theorem remove_item_stocked (d : dict) (fs : filesystem) (item : pystr)
    (v qty : pyval) (q n : Z) :
  dict_lookup item d = Some v -> as_int v = Some q -> 0 < q ->
  as_int qty = Some n -> 0 <= n ->
  exists d',
    remove_item item qty (with_stock (PDict d) fs)
    = (Ok true, with_stock (PDict d') fs) /\
    (q <= n -> d' = dict_del item d /\ dict_lookup item d' = None) /\
    (n < q -> d' = dict_set item (PInt (q - n)) d /\
              dict_lookup item d' = Some (PInt (q - n)) /\ 0 < q - n).
Proof.
  intros Hl Hv Hq Hn Hn0.
  exists (if q - n <=? 0 then dict_del item d
          else dict_set item (PInt (q - n)) d).
  split; [apply (remove_item_run d fs item v qty q n); assumption|]. split.
  - intros H. assert (E : (q - n <=? 0) = true) by (apply Z.leb_le; lia).
    rewrite E. split; [reflexivity|apply dict_lookup_del_same].
  - intros H. assert (E : (q - n <=? 0) = false) by (apply Z.leb_gt; lia).
    rewrite E. split; [reflexivity|]. split; [apply dict_lookup_set_same|lia].
Qed.

(* ===================================================================== *)
(** ** Loading *)

(** C6. When no file exists at the path, [load_data] returns [False] and
    leaves an empty ledger, whatever the ledger held. *)
Theorem load_data_missing_file (w : world) (file : pystr) :
  fs_entry (disk w) file = NoFile ->
  load_data file w = (Ok false, with_stock (PDict []) (disk w)).
Proof.
  intros H. unfold load_data, try_except, bind, read_text. rewrite H.
  reflexivity.
Qed.

(* ===================================================================== *)
(** ** Low stock *)

Lemma low_items_ledger (l : ledger) (threshold : Z) (found : list pystr) :
  low_items (map (fun kq => (fst kq, PInt (snd kq))) l) threshold found
  = Ok (found ++ low_names l threshold).
Proof.
  revert found. induction l as [|[k q] l IH]; intros found; simpl.
  - unfold low_names. simpl. rewrite List.app_nil_r. reflexivity.
  - unfold low_names in *. simpl. destruct (q <? threshold); simpl.
    + rewrite IH. rewrite <- List.app_assoc. reflexivity.
    + apply IH.
Qed.

Lemma low_names_iff (l : ledger) (threshold : Z) (name : pystr) :
  In name (low_names l threshold) <->
  exists q, In (name, q) l /\ q < threshold.
Proof.
  unfold low_names. rewrite in_map_iff. split.
  - intros [[k q] [Hk Hin]]. simpl in Hk. subst k.
    apply filter_In in Hin as [Hin Hlt]. simpl in Hlt.
    exists q. split; [exact Hin|]. apply Z.ltb_lt. exact Hlt.
  - intros [q [Hin Hlt]]. exists (name, q). split; [reflexivity|].
    apply filter_In. split; [exact Hin|]. simpl. apply Z.ltb_lt. exact Hlt.
Qed.

(** C9. On a ledger of integer quantities, [check_low_items(threshold)]
    returns the list of the names whose quantity is strictly below the
    threshold, those and no others, in the order of the ledger, and
    leaves the state as it was; on the empty ledger the list is empty. *)
Theorem check_low_items_exact (l : ledger) (fs : filesystem) (threshold : Z) :
  check_low_items threshold (with_stock (ledger_value l) fs)
  = (Ok (map fst (filter (fun kq => snd kq <? threshold) l)),
     with_stock (ledger_value l) fs) /\
  (forall name,
      In name (map fst (filter (fun kq => snd kq <? threshold) l)) <->
      exists q, In (name, q) l /\ q < threshold) /\
  check_low_items threshold (with_stock (PDict []) fs)
  = (Ok [], with_stock (PDict []) fs).
Proof.
  split; [|split].
  - unfold check_low_items, bind, get_stock, lift, with_stock, ledger_value.
    simpl. rewrite low_items_ledger. reflexivity.
  - intros name. apply low_names_iff.
  - reflexivity.
Qed.

(* ===================================================================== *)
(** ** Adding to stock *)

Lemma add_item_valid (d : dict) (fs : filesystem) (name : pystr)
    (qty : pyval) (n : Z) :
  name <> [] -> as_int qty = Some n -> 0 <= n -> int_dict d ->
  add_item (PStr name) qty (with_stock (PDict d) fs)
  = (Ok tt, with_stock (PDict (dict_set name (PInt (stored name d + n)) d)) fs).
Proof.
  intros Hname Hqty Hn Hd. unfold add_item.
  destruct name as [|c name]; [congruence|].
  rewrite Hqty. assert (Hlt : (n <? 0) = false) by (apply Z.ltb_ge; lia).
  rewrite Hlt. unfold bind, get_stock, lift, set_stock, with_stock, stored.
  simpl. destruct (dict_lookup (c :: name) d) as [v|] eqn:E; simpl.
  - destruct (Hd _ _ E) as [z ->]. reflexivity.
  - reflexivity.
Qed.

Lemma int_dict_set (d : dict) (name : pystr) (q : Z) :
  int_dict d -> int_dict (dict_set name (PInt q) d).
Proof.
  intros Hd k v. destruct (pystr_eqb k name) eqn:E.
  - apply pystr_eqb_eq in E. subst k. rewrite dict_lookup_set_same.
    intros H. injection H as <-. eauto.
  - apply pystr_eqb_neq in E. rewrite dict_lookup_set_other by exact E.
    apply Hd.
Qed.

Lemma stored_set (d : dict) (name k : pystr) (q : Z) :
  stored k (dict_set name (PInt q) d)
  = if pystr_eqb k name then q else stored k d.
Proof.
  unfold stored. destruct (pystr_eqb k name) eqn:E.
  - apply pystr_eqb_eq in E. subst k. rewrite dict_lookup_set_same.
    reflexivity.
  - apply pystr_eqb_neq in E. rewrite dict_lookup_set_other by exact E.
    reflexivity.
Qed.

Lemma add_all_stored (adds : list (pystr * Z)) :
  Forall (fun a => fst a <> [] /\ 0 <= snd a) adds ->
  forall (d : dict) (fs : filesystem),
    int_dict d ->
    exists d',
      add_all adds (with_stock (PDict d) fs) = (Ok tt, with_stock (PDict d') fs)
      /\ int_dict d'
      /\ forall name, stored name d' = stored name d + added name adds.
Proof.
  induction 1 as [|[k q] adds [Hk Hq] _ IH]; intros d fs Hd.
  - exists d. split; [reflexivity|]. split; [exact Hd|]. intros. simpl. lia.
  - simpl in Hk, Hq.
    destruct (IH (dict_set k (PInt (stored k d + q)) d) fs
                (int_dict_set _ _ _ Hd)) as [d' [Hrun [Hd' Hsum]]].
    exists d'. split; [|split].
    + cbn [add_all]. unfold bind.
      rewrite (add_item_valid d fs k (PInt q) q) by (assumption || reflexivity).
      exact Hrun.
    + exact Hd'.
    + intros name. rewrite Hsum. rewrite stored_set. simpl.
      destruct (pystr_eqb name k) eqn:E; [|lia].
      apply pystr_eqb_eq in E. subst. lia.
Qed.

Lemma get_qty_int_dict (d : dict) (fs : filesystem) (name : pystr) :
  int_dict d ->
  get_qty name (with_stock (PDict d) fs)
  = (Ok (PInt (stored name d)), with_stock (PDict d) fs).
Proof.
  intros Hd. unfold get_qty, bind, get_stock, lift, ret, with_stock, stored.
  simpl. unfold dict_mem.
  destruct (dict_lookup name d) as [v|] eqn:E; simpl; [|reflexivity].
  destruct (Hd _ _ E) as [q ->]. reflexivity.
Qed.

(** C5. After any sequence of valid [add_item] calls (non-empty name,
    non-negative integer quantity) on the empty ledger, the calls all
    return normally and [get_qty(name)] returns the sum of the quantities
    added under that name, 0 for a name never added, and does not change
    the state. *)
Theorem get_qty_after_adds (adds : list (pystr * Z)) (fs : filesystem)
    (name : pystr) :
  Forall (fun a => fst a <> [] /\ 0 <= snd a) adds ->
  exists w,
    add_all adds (with_stock (PDict []) fs) = (Ok tt, w) /\
    get_qty name w = (Ok (PInt (added name adds)), w) /\
    ((forall q, ~ In (name, q) adds) -> get_qty name w = (Ok (PInt 0), w)).
Proof.
  intros Hadds.
  assert (H0 : int_dict []) by (intros k v H; discriminate H).
  destruct (add_all_stored adds Hadds [] fs H0) as [d' [Hrun [Hd' Hsum]]].
  exists (with_stock (PDict d') fs). split; [exact Hrun|].
  assert (Hget : get_qty name (with_stock (PDict d') fs)
                 = (Ok (PInt (added name adds)), with_stock (PDict d') fs)).
  { rewrite get_qty_int_dict by exact Hd'. rewrite Hsum. reflexivity. }
  split; [exact Hget|].
  intros Hnone. rewrite Hget. do 3 f_equal.
  clear -Hnone. induction adds as [|[k q] adds IH]; simpl; [reflexivity|].
  destruct (pystr_eqb name k) eqn:E.
  - apply pystr_eqb_eq in E. subst k. exfalso. apply (Hnone q). left.
    reflexivity.
  - rewrite IH; [reflexivity|]. intros q' Hin. apply (Hnone q'). right.
    exact Hin.
Qed.

(* ===================================================================== *)
(** ** The decoder always answers *)

Lemma skip_ws_length (s : pystr) :
  (List.length (skip_ws s) <= List.length s)%nat.
Proof.
  induction s as [|c s IH]; simpl; [lia|].
  destruct (is_ws c); simpl; lia.
Qed.

Lemma take_digits_length (s : pystr) :
  (List.length (snd (take_digits s)) <= List.length s)%nat.
Proof.
  induction s as [|c s IH]; simpl; [lia|].
  destruct (digit c); simpl; [|lia].
  destruct (take_digits s); simpl in *; lia.
Qed.

Lemma take_digits1_length (s : pystr) (u : uint) (r : pystr) :
  take_digits1 s = Some (u, r) -> (List.length r < List.length s)%nat.
Proof.
  destruct s as [|c s]; simpl; [discriminate|].
  destruct (digit c); [|discriminate].
  pose proof (take_digits_length s) as H.
  destruct (take_digits s); simpl in *. intros E. injection E as _ <-. lia.
Qed.

Lemma lex_int_part_length (s : pystr) (u : uint) (r : pystr) :
  lex_int_part s = Some (u, r) -> (List.length r < List.length s)%nat.
Proof.
  destruct s as [|c s]; [discriminate|]. unfold lex_int_part.
  destruct (c =? 48)%N.
  - intros E. injection E as _ <-. simpl. lia.
  - apply take_digits1_length.
Qed.

Lemma lex_frac_length (s : pystr) (u : uint) (r : pystr) :
  lex_frac s = Some (u, r) -> (List.length r < List.length s)%nat.
Proof.
  destruct s as [|c s]; [discriminate|]. unfold lex_frac.
  destruct (c =? 46)%N; [|discriminate].
  intros E. apply take_digits1_length in E. simpl. lia.
Qed.

Lemma lex_exp_length (s : pystr) (e : Decimal.int) (r : pystr) :
  lex_exp s = Some (e, r) -> (List.length r < List.length s)%nat.
Proof.
  destruct s as [|c s]; [discriminate|]. unfold lex_exp.
  destruct ((c =? 101) || (c =? 69))%N; [|discriminate].
  destruct s as [|sg s2]; [discriminate|].
  destruct (sg =? 43)%N; [|destruct (sg =? 45)%N].
  - destruct (take_digits1 s2) as [[u r']|] eqn:E; [|discriminate].
    intros H. injection H as _ <-. apply take_digits1_length in E. simpl. lia.
  - destruct (take_digits1 s2) as [[u r']|] eqn:E; [|discriminate].
    intros H. injection H as _ <-. apply take_digits1_length in E. simpl. lia.
  - destruct (take_digits1 (sg :: s2)) as [[u r']|] eqn:E; [|discriminate].
    intros H. injection H as _ <-. apply take_digits1_length in E.
    simpl in *. lia.
Qed.

Lemma lex_unsigned_length (negative : bool) (s : pystr) (v : pyval)
    (r : pystr) :
  lex_unsigned negative s = Some (v, r) ->
  (List.length r < List.length s)%nat.
Proof.
  unfold lex_unsigned.
  destruct (lex_int_part s) as [[u s1]|] eqn:E1; [|discriminate].
  apply lex_int_part_length in E1. cbv zeta.
  destruct (lex_frac s1) as [[f s2]|] eqn:E2.
  - apply lex_frac_length in E2.
    destruct (lex_exp s2) as [[e s3]|] eqn:E3.
    + apply lex_exp_length in E3. intros H. injection H as _ <-. lia.
    + intros H. injection H as _ <-. lia.
  - destruct (lex_exp s1) as [[e s3]|] eqn:E3.
    + apply lex_exp_length in E3. intros H. injection H as _ <-. lia.
    + intros H. injection H as _ <-. lia.
Qed.

Lemma lex_number_length (s : pystr) (v : pyval) (r : pystr) :
  lex_number s = Some (v, r) -> (List.length r < List.length s)%nat.
Proof.
  unfold lex_number. destruct s as [|c s']; [discriminate|].
  destruct (c =? 45)%N; intros H; apply lex_unsigned_length in H;
    simpl in *; lia.
Qed.

Lemma starts_with_length (p s : pystr) :
  starts_with p s = true -> (List.length p <= List.length s)%nat.
Proof.
  revert s. induction p as [|x p IH]; intros [|y s]; simpl; try lia;
    try discriminate.
  intros H. apply andb_true_iff in H as [_ H]. apply IH in H. lia.
Qed.

Lemma literal_length (lit : string) (v v' : pyval) (s r : pystr) :
  (0 < List.length (str lit))%nat ->
  literal lit v s = Some (v', r) -> (List.length r < List.length s)%nat.
Proof.
  intros Hlit. unfold literal.
  destruct (starts_with (str lit) s) eqn:E; [|discriminate].
  apply starts_with_length in E. intros H. injection H as _ <-.
  rewrite length_skipn. lia.
Qed.

Lemma scan_atom_length (s : pystr) (v : pyval) (r : pystr) :
  scan_atom s = Some (v, r) -> (List.length r < List.length s)%nat.
Proof.
  unfold scan_atom, or_else.
  repeat match goal with
         | |- match ?x with Some _ => _ | None => _ end = _ -> _ =>
             let E := fresh "E" in
             destruct x as [[? ?]|] eqn:E;
             [intros H; injection H as <- <-;
              first [ eapply literal_length; [|exact E]; simpl; lia
                    | eapply lex_number_length; exact E ] | ]
         end.
  apply literal_length. simpl. lia.
Qed.

Lemma consumes_prepend (c : codepoint) (s s' : pystr) (x : parsed pystr) :
  consumes s' x -> (List.length s' <= List.length s)%nat ->
  consumes s (prepend c x).
Proof. destruct x; simpl; auto. lia. Qed.

Lemma scanstring_consumes (n : nat) :
  forall s, (List.length s <= n)%nat -> consumes s (scanstring s).
Proof.
  induction n as [|n IH]; intros s Hs.
  - destruct s; [exact I|simpl in Hs; lia].
  - destruct s as [|c s1]; [exact I|]. cbn [List.length] in Hs.
    cbn [scanstring].
    repeat match goal with
           | |- consumes _ (Parsed _ _) => cbn [consumes List.length]; lia
           | |- consumes _ Invalid => exact I
           | |- consumes _ (prepend _ (scanstring ?t)) =>
               apply (consumes_prepend _ _ t);
               [apply IH|]; cbn [List.length] in *; lia
           | |- consumes _ (if ?b then _ else _) => destruct b
           | |- consumes _ (match ?x with Some _ => _ | None => _ end) =>
               destruct x
           | |- consumes _ (match ?x with [] => _ | _ :: _ => _ end) =>
               destruct x
           end.
Qed.

Lemma consumes_mono {A : Type} (s s' : pystr) (x : parsed A) :
  consumes s' x -> (List.length s' <= List.length s)%nat -> consumes s x.
Proof. destruct x; simpl; auto. lia. Qed.

Lemma scan_fuel (fuel : nat) :
  (forall s, (2 * List.length s < fuel)%nat -> consumes s (scan_once fuel s)) /\
  (forall s pairs, (2 * List.length s < fuel)%nat ->
                   consumes s (object_members fuel s pairs)) /\
  (forall s values, (2 * List.length s + 1 < fuel)%nat ->
                    consumes s (array_elems fuel s values)).
Proof.
  induction fuel as [|fuel [IH1 [IH2 IH3]]].
  - repeat split; intros; lia.
  - repeat split.
    + intros s Hs. destruct s as [|c s1]; [exact I|]. simpl in Hs.
      simpl scan_once.
      destruct (c =? 34)%N.
      { pose proof (scanstring_consumes _ s1 (le_n _)) as H.
        destruct (scanstring s1); simpl in *; [lia|exact I|exact H]. }
      destruct (c =? 123)%N.
      { pose proof (skip_ws_length s1) as Hw.
        destruct (skip_ws s1) as [|c1 s2]; [exact I|]. simpl in Hw.
        destruct (c1 =? 125)%N; [simpl; lia|].
        destruct (c1 =? 34)%N; [|exact I].
        apply (consumes_mono _ s2); [apply IH2|]; simpl; lia. }
      destruct (c =? 91)%N.
      { pose proof (skip_ws_length s1) as Hw.
        destruct (skip_ws s1) as [|c1 s2]; [exact I|]. simpl in Hw.
        destruct (c1 =? 93)%N; [simpl; lia|].
        apply (consumes_mono _ (c1 :: s2)); [apply IH3|]; simpl; lia. }
      destruct (scan_atom (c :: s1)) as [[v r]|] eqn:E; [|exact I].
      apply scan_atom_length in E. exact E.
    + intros s pairs Hs. simpl object_members.
      pose proof (scanstring_consumes _ s (le_n _)) as H.
      destruct (scanstring s) as [key s1| |]; simpl in H; auto.
      pose proof (skip_ws_length s1) as Hw1.
      destruct (skip_ws s1) as [|c s2]; [exact I|]. simpl in Hw1.
      destruct (c =? 58)%N; [|exact I].
      pose proof (skip_ws_length s2) as Hw2.
      assert (Hv : consumes (skip_ws s2) (scan_once fuel (skip_ws s2)))
        by (apply IH1; lia).
      destruct (scan_once fuel (skip_ws s2)) as [value s3| |]; simpl in Hv;
        auto.
      cbv zeta.
      pose proof (skip_ws_length s3) as Hw3.
      destruct (skip_ws s3) as [|c' s4]; [exact I|]. simpl in Hw3.
      destruct (c' =? 125)%N; [simpl; lia|].
      destruct (c' =? 44)%N; [|exact I].
      pose proof (skip_ws_length s4) as Hw4.
      destruct (skip_ws s4) as [|q s5]; [exact I|]. simpl in Hw4.
      destruct (q =? 34)%N; [|exact I].
      apply (consumes_mono _ s5); [apply IH2|]; simpl; lia.
    + intros s values Hs. simpl array_elems.
      assert (Hv : consumes s (scan_once fuel s)) by (apply IH1; lia).
      destruct (scan_once fuel s) as [value s1| |]; simpl in Hv; auto.
      cbv zeta.
      pose proof (skip_ws_length s1) as Hw1.
      destruct (skip_ws s1) as [|c s2]; [exact I|]. simpl in Hw1.
      destruct (c =? 93)%N; [simpl; lia|].
      destruct (c =? 44)%N; [|exact I].
      pose proof (skip_ws_length s2) as Hw2.
      apply (consumes_mono _ (skip_ws s2)); [apply IH3|]; simpl; lia.
Qed.

(** [json_loads] returns a value or raises [JSONDecodeError]: the fuel
    of [fuel_for] never runs out. *)
Lemma json_loads_total (s : pystr) :
  (exists v, json_loads s = Ok v) \/ json_loads s = Raise JSONDecodeError.
Proof.
  unfold json_loads. destruct (starts_with [65279%N] s); [right; reflexivity|].
  pose proof (skip_ws_length s) as Hw.
  assert (H : consumes (skip_ws s) (scan_once (fuel_for s) (skip_ws s))).
  { apply scan_fuel. unfold fuel_for. lia. }
  destruct (scan_once (fuel_for s) (skip_ws s)) as [v rest| |].
  - destruct (skip_ws rest); [left; eauto|right; reflexivity].
  - right. reflexivity.
  - destruct H.
Qed.

(** C2, where the code departs from it. A file that exists and whose
    bytes are not UTF-8, as the single byte FF, does not parse as JSON;
    [load_data] catches [json.JSONDecodeError] only, so the
    [UnicodeDecodeError] of the decoding reaches the caller and no
    [False] is returned. The ledger is what it was. *)
Theorem load_data_not_utf8 :
  load_data default_file
    (with_stock (PDict [(str "apple", PInt 3)])
       (disk_holding default_file Undecodable))
  = (Raise UnicodeDecodeError,
     with_stock (PDict [(str "apple", PInt 3)])
       (disk_holding default_file Undecodable)) /\
  fst (load_data default_file
         (with_stock (PDict [(str "apple", PInt 3)])
            (disk_holding default_file Undecodable)))
  <> Ok false.
Proof. split; [reflexivity|discriminate]. Qed.

(** X20. When the file exists and its bytes are UTF-8 text that is not
    valid JSON, [load_data] returns [False] and the whole state, the
    ledger included, is what it was before the call. *)
Theorem load_data_malformed (w : world) (file text : pystr) :
  fs_entry (disk w) file = FileText text ->
  (forall v, json_loads text <> Ok v) ->
  load_data file w = (Ok false, w).
Proof.
  intros Hfile Hbad.
  destruct (json_loads_total text) as [[v Hv]|Hraise].
  - exfalso. exact (Hbad v Hv).
  - unfold load_data, try_except, bind, read_text, lift. rewrite Hfile.
    rewrite Hraise. reflexivity.
Qed.

(** C10. [load_data] does not look at the shape of what it parsed: when
    the text of the file is valid JSON, of any shape, the call returns
    [True] and [STOCK_DATA] is the parsed value, be it a list, a string, a
    number or a mapping with any values. *)
Theorem load_data_any_shape (w : world) (file text : pystr) (v : pyval) :
  fs_entry (disk w) file = FileText text ->
  json_loads text = Ok v ->
  load_data file w = (Ok true, with_stock v (disk w)).
Proof.
  intros Hfile Hv.
  unfold load_data, try_except, bind, read_text, lift. rewrite Hfile.
  rewrite Hv. reflexivity.
Qed.

(** X5. What [load_data] does not catch: a file that cannot be opened for
    another reason than its absence, or whose bytes are not UTF-8, raises
    to the caller; the ledger keeps its value. *)
Lemma load_data_uncaught (w : world) (file : pystr) :
  (fs_entry (disk w) file = Unreadable ->
   load_data file w = (Raise OSError, w)) /\
  (fs_entry (disk w) file = Undecodable ->
   load_data file w = (Raise UnicodeDecodeError, w)).
Proof.
  unfold load_data, try_except, bind, read_text.
  split; intros H; rewrite H; reflexivity.
Qed.

(* ===================================================================== *)
(** ** Positive quantities *)

Lemma lookup_positive (d : dict) (k : pystr) (v : pyval) :
  Forall (fun kv => exists q, snd kv = PInt q /\ 0 < q) d ->
  dict_lookup k d = Some v -> exists q, v = PInt q /\ 0 < q.
Proof.
  induction 1 as [|[k' v'] d Hx _ IH]; simpl; [discriminate|].
  destruct (pystr_eqb k k'); [|exact IH].
  intros E. injection E as <-. exact Hx.
Qed.

Lemma positive_int_dict (d : dict) :
  Forall (fun kv => exists q, snd kv = PInt q /\ 0 < q) d -> int_dict d.
Proof.
  intros H k v E. destruct (lookup_positive d k v H E) as [q [-> _]]. eauto.
Qed.

Lemma Forall_dict_set (Q : pyval -> Prop) (d : dict) (k : pystr) (v : pyval) :
  Forall (fun kv => Q (snd kv)) d -> Q v ->
  Forall (fun kv => Q (snd kv)) (dict_set k v d).
Proof.
  intros H Hv. induction d as [|[k' v'] d IH]; simpl.
  - constructor; [exact Hv|constructor].
  - inversion H as [|kv d0 Hx Hd]; subst.
    destruct (pystr_eqb k k'); constructor; auto.
Qed.

Lemma Forall_dict_del (P : pystr * pyval -> Prop) (d : dict) (k : pystr) :
  Forall P d -> Forall P (dict_del k d).
Proof.
  intros H. unfold dict_del. induction H as [|kv d Hx _ IH]; simpl.
  - constructor.
  - destruct (negb (pystr_eqb k (fst kv))); [constructor|]; auto.
Qed.

Lemma add_item_step (d : dict) (fs : filesystem) (item qty : pyval)
    (r : result unit) (w' : world) :
  int_dict d ->
  add_item item qty (with_stock (PDict d) fs) = (r, w') ->
  w' = with_stock (PDict d) fs \/
  exists name n,
    item = PStr name /\ name <> [] /\ as_int qty = Some n /\ 0 <= n /\
    w' = with_stock (PDict (dict_set name (PInt (stored name d + n)) d)) fs.
Proof.
  intros Hd.
  destruct item as [| | | |name| |];
    try (intros E; injection E as _ <-; left; reflexivity).
  destruct name as [|c name];
    [intros E; injection E as _ <-; left; reflexivity|].
  destruct (as_int qty) as [n|] eqn:Hq;
    [|unfold add_item; rewrite Hq; intros E; injection E as _ <-; left;
      reflexivity].
  destruct (n <? 0) eqn:Hn.
  - unfold add_item. rewrite Hq, Hn. intros E; injection E as _ <-. left.
    reflexivity.
  - apply Z.ltb_ge in Hn.
    rewrite (add_item_valid d fs (c :: name) qty n) by (assumption || discriminate).
    intros E; injection E as _ <-. right. exists (c :: name), n.
    repeat split; auto. discriminate.
Qed.

Lemma remove_item_positive (d : dict) (fs : filesystem) (item : pystr)
    (qty : pyval) (r : result bool) (w' : world) :
  Forall (fun kv => exists q, snd kv = PInt q /\ 0 < q) d ->
  remove_item item qty (with_stock (PDict d) fs) = (r, w') ->
  exists d', w' = with_stock (PDict d') fs /\
             Forall (fun kv => exists q, snd kv = PInt q /\ 0 < q) d'.
Proof.
  intros Hd.
  destruct (dict_lookup item d) as [v|] eqn:Hl.
  - destruct (lookup_positive d item v Hd Hl) as [q [-> Hq]].
    assert (Hmem : dict_mem item d = true) by (unfold dict_mem; rewrite Hl; reflexivity).
    destruct (as_int qty) as [n|] eqn:Hn.
    + destruct (Z.lt_ge_cases n 0) as [Hneg|Hpos].
      * rewrite remove_item_bad_quantity; [|exact Hmem|right; eauto].
        intros E; injection E as _ <-. eauto.
      * rewrite (remove_item_run d fs item (PInt q) qty q n) by auto.
        intros E; injection E as _ <-.
        eexists. split; [reflexivity|].
        destruct (q - n <=? 0) eqn:E.
        -- apply Forall_dict_del. exact Hd.
        -- apply Z.leb_gt in E.
           apply (Forall_dict_set (fun v => exists q, v = PInt q /\ 0 < q));
             eauto.
    + rewrite remove_item_bad_quantity; [|exact Hmem|left; exact Hn].
      intros E; injection E as _ <-. eauto.
  - rewrite remove_item_absent by (unfold dict_mem; rewrite Hl; reflexivity).
    intros E; injection E as _ <-. eauto.
Qed.

Lemma load_data_positive (w : world) (file : pystr) (r : result bool)
    (w' : world) :
  loads_positive file w -> stored_positive (STOCK_DATA w) ->
  load_data file w = (r, w') -> stored_positive (STOCK_DATA w').
Proof.
  intros Hfile Hw. unfold load_data, try_except, bind, read_text, lift.
  destruct (fs_entry (disk w) file) as [| | |text|b] eqn:E.
  - intros H; injection H as _ <-. simpl. exists []. split; [reflexivity|].
    constructor.
  - intros H; injection H as _ <-. exact Hw.
  - intros H; injection H as _ <-. exact Hw.
  - destruct (json_loads_total text) as [[v Hv]|Hv]; rewrite Hv.
    + intros H; injection H as _ <-. simpl. exact (Hfile text v E Hv).
    + intros H; injection H as _ <-. exact Hw.
  - destruct b; intros H; injection H as _ <-; exact Hw.
Qed.

(** C1, as the code has it. From the empty ledger, any sequence of
    [add_item], [remove_item] and [load_data] calls leaves only strictly
    positive integer quantities in the ledger, provided no [add_item] call
    creates an item with quantity zero and every file that loads holds
    strictly positive integer quantities. *)
Theorem guarded_states_positive (w : world) :
  reachable_guarded w -> stored_positive (STOCK_DATA w).
Proof.
  induction 1 as [fs|w item qty r w' Hw IH Hzero Hadd
                 |w item qty r w' Hw IH Hrem|w file r w' Hw IH Hfile Hload].
  - exists []. split; [reflexivity|constructor].
  - destruct w as [stock fs]. simpl in IH. destruct IH as [d [-> Hd]].
    destruct (add_item_step d fs item qty r w' (positive_int_dict d Hd) Hadd)
      as [->|[name [n [-> [Hname [Hq [Hn ->]]]]]]].
    + exists d. split; [reflexivity|exact Hd].
    + eexists. split; [reflexivity|].
      apply (Forall_dict_set (fun v => exists q, v = PInt q /\ 0 < q));
        [exact Hd|].
      eexists. split; [reflexivity|]. unfold stored.
      destruct (dict_lookup name d) as [v|] eqn:Hl.
      * destruct (lookup_positive d name v Hd Hl) as [q [-> Hpos]]. lia.
      * assert (n <> 0); [|lia]. intros ->. apply Hzero.
        exists name, d. repeat split; auto. unfold dict_mem. rewrite Hl.
        reflexivity.
  - destruct w as [stock fs]. simpl in IH. destruct IH as [d [-> Hd]].
    destruct (remove_item_positive d fs item qty r w' Hd Hrem) as [d' [-> Hd']].
    exists d'. split; [reflexivity|exact Hd'].
  - exact (load_data_positive w file r w' Hfile IH Hload).
Qed.

(* ===================================================================== *)
(** ** Strings survive the encoder and the decoder *)

















(* ===================================================================== *)
(** ** Integers survive the encoder and the decoder *)








(* ===================================================================== *)
(** ** Ledgers survive [save_data] and [load_data] *)










(* ===================================================================== *)
(** ** Saving and the files *)


Lemma add_item_disk (item qty : pyval) (w : world) :
  disk (snd (add_item item qty w)) = disk w.
Proof.
  unfold add_item, bind, get_stock, lift, set_stock, ret.
  destruct item as [| | | |[|c name]| |]; try reflexivity.
  destruct (as_int qty) as [n|]; [|reflexivity].
  destruct (n <? 0); [reflexivity|]. simpl.
  destruct (py_get (STOCK_DATA w) (c :: name) (PInt 0)) as [v|e];
    [|reflexivity].
  destruct (py_add_int v n) as [t|e]; [|reflexivity].
  destruct (py_setitem (STOCK_DATA w) (c :: name) t); reflexivity.
Qed.

Lemma remove_item_disk (item : pystr) (qty : pyval) (w : world) :
  disk (snd (remove_item item qty w)) = disk w.
Proof.
  unfold remove_item, try_except, bind, get_stock, lift, set_stock, ret.
  destruct (py_contains (STOCK_DATA w) item) as [[|]|e]; simpl;
    [|reflexivity|destruct e; reflexivity].
  destruct (as_int qty) as [n|]; [|reflexivity].
  destruct (n <? 0); [reflexivity|].
  destruct (py_getitem (STOCK_DATA w) item) as [v|e];
    [|destruct e; reflexivity].
  destruct (py_sub_int v n) as [t|e]; [|destruct e; reflexivity].
  destruct (py_setitem (STOCK_DATA w) item t) as [s1|e];
    [|destruct e; reflexivity].
  simpl.
  destruct (py_getitem s1 item) as [v'|e]; [|destruct e; reflexivity].
  destruct (py_le_int v' 0) as [[|]|e]; [|reflexivity|destruct e; reflexivity].
  destruct (py_delitem s1 item) as [s2|e]; [reflexivity|].
  destruct e; reflexivity.
Qed.

Lemma load_data_disk (file : pystr) (w : world) :
  disk (snd (load_data file w)) = disk w.
Proof.
  unfold load_data, try_except, bind, read_text, lift, set_stock, ret.
  destruct (fs_entry (disk w) file) as [| | |text|b]; try reflexivity.
  - destruct (json_loads text) as [v|e]; [reflexivity|].
    destruct e; reflexivity.
  - destruct b; reflexivity.
Qed.

(** X2. Only [save_data] writes: [add_item], [remove_item] and [load_data]
    leave every file and every permission as they were, whatever they are
    given and whether they return or raise; [get_qty] and
    [check_low_items] leave the whole state, the ledger included. *)
Theorem disk_only_written_by_save (w : world) (item qty : pyval)
    (name file : pystr) (threshold : Z) :
  disk (snd (add_item item qty w)) = disk w /\
  disk (snd (remove_item name qty w)) = disk w /\
  disk (snd (load_data file w)) = disk w /\
  snd (get_qty name w) = w /\
  snd (check_low_items threshold w) = w.
Proof.
  split; [apply add_item_disk|]. split; [apply remove_item_disk|].
  split; [apply load_data_disk|]. split.
  - unfold get_qty, bind, get_stock, lift, ret.
    destruct (py_contains (STOCK_DATA w) name) as [[|]|e]; reflexivity.
  - unfold check_low_items, bind, get_stock, lift.
    destruct (py_items (STOCK_DATA w)) as [items|e]; reflexivity.
Qed.



(** X4. Loading twice is loading once: a second [load_data] of the same path
    gives the result of the first and leaves the state the first left. *)
Theorem load_data_twice (w : world) (file : pystr) :
  load_data file (snd (load_data file w))
  = (fst (load_data file w), snd (load_data file w)).
Proof.
  unfold load_data, try_except, bind, read_text, lift, set_stock, ret.
  destruct (fs_entry (disk w) file) as [| | |text|b] eqn:E; simpl;
    rewrite ?E; try reflexivity.
  - destruct (json_loads text) as [v|e] eqn:Hv; simpl.
    + rewrite E, Hv. reflexivity.
    + destruct e; simpl; rewrite ?E, ?Hv; reflexivity.
  - destruct b; simpl; rewrite E; reflexivity.
Qed.

(* ===================================================================== *)
(** ** What a call changes in the ledger *)

Lemma keys_dict_set (k : pystr) (v : pyval) (d : dict) :
  map fst (dict_set k v d)
  = if dict_mem k d then map fst d else map fst d ++ [k].
Proof.
  unfold dict_mem. induction d as [|[k' v'] d IH]; simpl; [reflexivity|].
  destruct (pystr_eqb k k') eqn:E; simpl; [reflexivity|].
  rewrite IH. destruct (dict_lookup k d); reflexivity.
Qed.

Lemma keys_dict_del (k : pystr) (d : dict) :
  map fst (dict_del k d)
  = filter (fun k' => negb (pystr_eqb k k')) (map fst d).
Proof.
  unfold dict_del. induction d as [|[k' v'] d IH]; simpl; [reflexivity|].
  destruct (pystr_eqb k k'); simpl; rewrite IH; reflexivity.
Qed.

Lemma add_item_run (d : dict) (fs : filesystem) (name : pystr)
    (qty : pyval) (n : Z) :
  name <> [] -> as_int qty = Some n -> 0 <= n ->
  (forall v, dict_lookup name d = Some v -> exists q, v = PInt q) ->
  add_item (PStr name) qty (with_stock (PDict d) fs)
  = (Ok tt, with_stock (PDict (dict_set name (PInt (stored name d + n)) d)) fs).
Proof.
  intros Hname Hqty Hn Hd. unfold add_item.
  destruct name as [|c name]; [congruence|].
  rewrite Hqty. assert (Hlt : (n <? 0) = false) by (apply Z.ltb_ge; lia).
  rewrite Hlt. unfold bind, get_stock, lift, set_stock, with_stock, stored.
  simpl. destruct (dict_lookup (c :: name) d) as [v|] eqn:E; simpl.
  - destruct (Hd _ eq_refl) as [z ->]. reflexivity.
  - reflexivity.
Qed.

(** X6. A valid [add_item] touches one entry: the name keeps its place in the
    ledger when it is there and goes last when it is new, its quantity
    grows by the quantity added, and every other entry is as before. *)
Theorem add_item_one_entry (d : dict) (fs : filesystem) (name : pystr)
    (qty : pyval) (n : Z) :
  name <> [] -> as_int qty = Some n -> 0 <= n -> int_dict d ->
  exists d',
    add_item (PStr name) qty (with_stock (PDict d) fs)
    = (Ok tt, with_stock (PDict d') fs) /\
    map fst d' = (if dict_mem name d then map fst d else map fst d ++ [name]) /\
    dict_lookup name d' = Some (PInt (stored name d + n)) /\
    (forall k, k <> name -> dict_lookup k d' = dict_lookup k d).
Proof.
  intros Hname Hqty Hn Hd.
  exists (dict_set name (PInt (stored name d + n)) d).
  split; [apply add_item_run; auto; intros v Hv; exact (Hd _ _ Hv)|].
  split; [apply keys_dict_set|]. split; [apply dict_lookup_set_same|].
  intros k Hk. apply dict_lookup_set_other. exact Hk.
Qed.

Lemma dict_lookup_del_other (k k' : pystr) (d : dict) :
  k <> k' -> dict_lookup k (dict_del k' d) = dict_lookup k d.
Proof.
  intros Hne. unfold dict_del. induction d as [|[k0 v0] d IH]; simpl; auto.
  destruct (pystr_eqb k' k0) eqn:E; simpl.
  - apply pystr_eqb_eq in E. subst k0.
    apply pystr_eqb_neq in Hne. rewrite Hne. exact IH.
  - destruct (pystr_eqb k k0); auto.
Qed.

Lemma dict_mem_false_del (k : pystr) (d : dict) :
  dict_mem k (dict_del k d) = false.
Proof. unfold dict_mem. rewrite dict_lookup_del_same. reflexivity. Qed.

(** X7. A successful [remove_item] touches one entry: the other entries keep
    their quantities, and the names keep their order, the depleted one
    left out. *)
Theorem remove_item_one_entry (d : dict) (fs : filesystem) (item : pystr)
    (v qty : pyval) (q n : Z) :
  dict_lookup item d = Some v -> as_int v = Some q ->
  as_int qty = Some n -> 0 <= n ->
  exists d',
    remove_item item qty (with_stock (PDict d) fs)
    = (Ok true, with_stock (PDict d') fs) /\
    map fst d' = (if q <=? n
                  then filter (fun k => negb (pystr_eqb item k)) (map fst d)
                  else map fst d) /\
    (forall k, k <> item -> dict_lookup k d' = dict_lookup k d).
Proof.
  intros Hl Hv Hn Hn0.
  rewrite (remove_item_run d fs item v qty q n Hl Hv Hn Hn0).
  eexists. split; [reflexivity|].
  assert (Hmem : dict_mem item d = true)
    by (unfold dict_mem; rewrite Hl; reflexivity).
  destruct (q - n <=? 0) eqn:E.
  - assert (E' : (q <=? n) = true) by (apply Z.leb_le; apply Z.leb_le in E; lia).
    rewrite E'. split; [apply keys_dict_del|].
    intros k Hk. apply dict_lookup_del_other. exact Hk.
  - assert (E' : (q <=? n) = false) by (apply Z.leb_gt; apply Z.leb_gt in E; lia).
    rewrite E'. split; [rewrite keys_dict_set, Hmem; reflexivity|].
    intros k Hk. apply dict_lookup_set_other. exact Hk.
Qed.

Lemma dict_set_same_value (k : pystr) (v : pyval) (d : dict) :
  dict_lookup k d = Some v -> dict_set k v d = d.
Proof.
  induction d as [|[k' v'] d IH]; simpl; [discriminate|].
  destruct (pystr_eqb k k') eqn:E.
  - intros H. injection H as ->. reflexivity.
  - intros H. rewrite IH by exact H. reflexivity.
Qed.

Lemma dict_set_twice (k : pystr) (v v' : pyval) (d : dict) :
  dict_set k v (dict_set k v' d) = dict_set k v d.
Proof.
  induction d as [|[k0 v0] d IH]; simpl.
  - rewrite pystr_eqb_refl. reflexivity.
  - destruct (pystr_eqb k k0) eqn:E; simpl; rewrite E; [reflexivity|].
    rewrite IH. reflexivity.
Qed.

Lemma dict_del_absent (k : pystr) (d : dict) :
  dict_lookup k d = None -> dict_del k d = d.
Proof.
  unfold dict_del. induction d as [|[k' v'] d IH]; simpl; [reflexivity|].
  destruct (pystr_eqb k k') eqn:E; [discriminate|].
  intros H. simpl. rewrite IH by exact H. reflexivity.
Qed.

(** X8. Adding a quantity and removing it again restores the ledger, names,
    quantities and order, when the item was absent or held a positive
    integer quantity; both calls succeed. *)
Theorem add_then_remove_restores (d : dict) (fs : filesystem)
    (name : pystr) (n : Z) :
  name <> [] -> 0 <= n ->
  dict_lookup name d = None \/
  (exists q, dict_lookup name d = Some (PInt q) /\ 0 < q) ->
  (add_item (PStr name) (PInt n) ;;; remove_item name (PInt n))
    (with_stock (PDict d) fs)
  = (Ok true, with_stock (PDict d) fs).
Proof.
  intros Hname Hn Hstock. unfold bind.
  rewrite (add_item_run d fs name (PInt n) n Hname eq_refl Hn).
  - rewrite (remove_item_run _ fs name (PInt (stored name d + n)) (PInt n)
               (stored name d + n) n
               (dict_lookup_set_same _ _ _) eq_refl eq_refl Hn).
    replace (stored name d + n - n) with (stored name d) by lia.
    destruct Hstock as [Hnone|[q [Hq Hpos]]].
    + unfold stored. rewrite Hnone. simpl.
      rewrite dict_del_set_same, dict_del_absent by exact Hnone.
      reflexivity.
    + unfold stored. rewrite Hq.
      assert (E : (q <=? 0) = false) by (apply Z.leb_gt; exact Hpos).
      rewrite E, dict_set_twice, dict_set_same_value by exact Hq.
      reflexivity.
  - intros v Hv. destruct Hstock as [Hnone|[q [Hq _]]]; [congruence|].
    rewrite Hq in Hv. injection Hv as <-. eauto.
Qed.

(* ===================================================================== *)
(** ** Ledgers in good order *)

Lemma dict_mem_false_notin (k : pystr) (d : dict) :
  dict_mem k d = false -> ~ In k (map fst d).
Proof.
  unfold dict_mem. induction d as [|[k' v'] d IH]; simpl; [tauto|].
  destruct (pystr_eqb k k') eqn:E; [discriminate|].
  intros H [Hk|Hin]; [|exact (IH H Hin)].
  apply pystr_eqb_neq in E. congruence.
Qed.

Lemma Forall_dict_set_pair (P : pystr * pyval -> Prop) (d : dict)
    (k : pystr) (v : pyval) :
  Forall P d -> P (k, v) -> Forall P (dict_set k v d).
Proof.
  intros H Hv. induction d as [|[k' v'] d IH]; simpl.
  - constructor; [exact Hv|constructor].
  - inversion H as [|kv d0 Hx Hd]; subst.
    destruct (pystr_eqb k k') eqn:E.
    + apply pystr_eqb_eq in E. subst k'. constructor; assumption.
    + constructor; auto.
Qed.

Lemma tidy_int_dict (d : dict) : tidy d -> int_dict d.
Proof.
  intros [_ H] k v Hl. induction H as [|[k' v'] d [_ [q [Hq _]]] _ IH];
    simpl in Hl; [discriminate|].
  destruct (pystr_eqb k k'); [|exact (IH Hl)].
  injection Hl as <-. simpl in Hq. eauto.
Qed.

Lemma tidy_stored (d : dict) (k : pystr) : tidy d -> 0 <= stored k d.
Proof.
  intros [_ H]. unfold stored.
  induction H as [|[k' v'] d [_ [q [Hq Hpos]]] _ IH]; simpl; [lia|].
  destruct (pystr_eqb k k'); [|exact IH].
  simpl in Hq. subst v'. exact Hpos.
Qed.

Lemma tidy_set (d : dict) (k : pystr) (q : Z) :
  tidy d -> k <> [] -> 0 <= q -> tidy (dict_set k (PInt q) d).
Proof.
  intros [Hdup Hall] Hk Hq. split.
  - rewrite keys_dict_set. destruct (dict_mem k d) eqn:E; [exact Hdup|].
    apply NoDup_app; [exact Hdup|constructor; [intros []|constructor]|].
    intros x Hx [<-|[]]. exact (dict_mem_false_notin _ _ E Hx).
  - apply Forall_dict_set_pair; [exact Hall|]. simpl. eauto.
Qed.

Lemma tidy_del (d : dict) (k : pystr) : tidy d -> tidy (dict_del k d).
Proof.
  intros [Hdup Hall]. split.
  - rewrite keys_dict_del. apply NoDup_filter. exact Hdup.
  - apply Forall_dict_del. exact Hall.
Qed.

Lemma add_item_tidy (d : dict) (fs : filesystem) (item qty : pyval) :
  tidy d ->
  exists d',
    add_item item qty (with_stock (PDict d) fs)
    = (Ok tt, with_stock (PDict d') fs) /\ tidy d'.
Proof.
  intros Hd.
  destruct item as [| | | |name| |]; try (exists d; split; [reflexivity|exact Hd]).
  destruct name as [|c name]; [exists d; split; [reflexivity|exact Hd]|].
  destruct (as_int qty) as [n|] eqn:Hq;
    [|exists d; split; [unfold add_item; rewrite Hq; reflexivity|exact Hd]].
  destruct (n <? 0) eqn:Hn.
  - exists d. split; [unfold add_item; rewrite Hq, Hn; reflexivity|exact Hd].
  - apply Z.ltb_ge in Hn. eexists. split.
    + apply (add_item_valid d fs (c :: name) qty n);
        [discriminate|exact Hq|exact Hn|exact (tidy_int_dict d Hd)].
    + apply tidy_set; [exact Hd|discriminate|].
      pose proof (tidy_stored d (c :: name) Hd). lia.
Qed.

Lemma remove_item_tidy (d : dict) (fs : filesystem) (item : pystr)
    (qty : pyval) :
  tidy d ->
  exists b d',
    remove_item item qty (with_stock (PDict d) fs)
    = (Ok b, with_stock (PDict d') fs) /\ tidy d'.
Proof.
  intros Hd.
  destruct (dict_lookup item d) as [v|] eqn:Hl.
  - destruct (tidy_int_dict d Hd item v Hl) as [q ->].
    assert (Hmem : dict_mem item d = true)
      by (unfold dict_mem; rewrite Hl; reflexivity).
    destruct (as_int qty) as [n|] eqn:Hn.
    + destruct (Z.lt_ge_cases n 0) as [Hneg|Hpos].
      * exists false, d. split; [|exact Hd].
        apply remove_item_bad_quantity; [exact Hmem|right; eauto].
      * exists true. eexists. split.
        -- apply (remove_item_run d fs item (PInt q) qty q n); auto.
        -- destruct (q - n <=? 0) eqn:E; [apply tidy_del; exact Hd|].
           apply Z.leb_gt in E. apply tidy_set; [exact Hd| |lia].
           destruct Hd as [_ Hall]. clear -Hl Hall.
           induction Hall as [|[k' v'] d [Hk _] _ IH]; simpl in Hl;
             [discriminate|].
           destruct (pystr_eqb item k') eqn:E; [|exact (IH Hl)].
           apply pystr_eqb_eq in E. subst. exact Hk.
    + exists false, d. split; [|exact Hd].
      apply remove_item_bad_quantity; [exact Hmem|left; exact Hn].
  - exists false, d. split; [|exact Hd].
    apply remove_item_absent. unfold dict_mem. rewrite Hl. reflexivity.
Qed.

(** X9. The ledgers in good order (distinct non-empty names, integer
    quantities not below zero) are closed under [add_item] and
    [remove_item]. After [add_item] with any item and any quantity, be it
    refused or not, the ledger is in good order; [remove_item] with a
    string for the item and any quantity returns without raising and
    leaves the ledger in good order; so does any sequence of such calls.
    The empty ledger is in good order. *)
Theorem tidy_ledgers_closed (d : dict) (fs : filesystem) :
  tidy d ->
  (forall item qty,
      exists d', snd (add_item item qty (with_stock (PDict d) fs))
                 = with_stock (PDict d') fs /\ tidy d') /\
  (forall (name : pystr) qty,
      exists b d', remove_item name qty (with_stock (PDict d) fs)
                   = (Ok b, with_stock (PDict d') fs) /\ tidy d') /\
  (forall cs,
      exists d', run_calls cs (with_stock (PDict d) fs)
                 = with_stock (PDict d') fs /\ tidy d').
Proof.
  intros Hd. split.
  { intros item qty.
    destruct (add_item_tidy d fs item qty Hd) as [d' [E Hd']].
    exists d'. rewrite E. split; [reflexivity|exact Hd']. }
  split; [intros; apply remove_item_tidy; exact Hd|].
  intros cs. revert d Hd. unfold run_calls.
  induction cs as [|c cs IH]; intros d Hd; [exists d; split; [reflexivity|exact Hd]|].
  simpl. destruct c as [item qty|item qty]; simpl.
  - destruct (add_item_tidy d fs item qty Hd) as [d' [E Hd']].
    rewrite E. simpl. apply IH. exact Hd'.
  - destruct (remove_item_tidy d fs item qty Hd) as [b [d' [E Hd']]].
    rewrite E. simpl. apply IH. exact Hd'.
Qed.

(** X10. [remove_item] answers [False] exactly when the item is absent or the
    quantity is negative or no integer, on any mapping whatever it
    holds; the handler for [KeyError] never decides the answer. *)
Theorem remove_item_false_iff (d : dict) (fs : filesystem) (item : pystr)
    (qty : pyval) :
  fst (remove_item item qty (with_stock (PDict d) fs)) = Ok false <->
  dict_mem item d = false \/ invalid_quantity qty.
Proof.
  split.
  - destruct (dict_mem item d) eqn:Hmem; [|auto].
    destruct (as_int qty) as [n|] eqn:Hn; [|intros _; right; left; exact Hn].
    destruct (Z.lt_ge_cases n 0) as [Hneg|Hpos];
      [intros _; right; right; eauto|].
    intros H. exfalso. revert H.
    unfold remove_item, try_except, bind, get_stock, set_stock, lift, ret,
      with_stock. simpl. rewrite Hmem. simpl. rewrite Hn.
    assert (Hlt : (n <? 0) = false) by (apply Z.ltb_ge; lia).
    rewrite Hlt. unfold dict_mem in Hmem.
    destruct (dict_lookup item d) as [v|]; [|discriminate].
    destruct (py_sub_int v n) as [t|e] eqn:Hsub.
    + simpl. rewrite dict_lookup_set_same. simpl.
      assert (Hle : exists b, py_le_int t 0 = Ok b).
      { destruct v as [|[|]|z|f| | |]; simpl in Hsub; try discriminate;
          try (injection Hsub as <-; simpl; eauto).
        unfold of_float in Hsub. destruct (float_sub_int f n);
          [injection Hsub as <-; simpl; eauto|discriminate]. }
      destruct Hle as [b ->]. destruct b; simpl.
      * unfold dict_mem. rewrite dict_lookup_set_same. simpl. discriminate.
      * discriminate.
    + destruct v as [|[|]|z|f| | |]; simpl in Hsub; try discriminate;
        try (injection Hsub as <-; simpl; discriminate).
      unfold of_float in Hsub. destruct (float_sub_int f n);
        [discriminate|injection Hsub as <-; simpl; discriminate].
  - intros [H|H].
    + rewrite remove_item_absent by exact H. reflexivity.
    + destruct (dict_mem item d) eqn:Hmem.
      * rewrite remove_item_bad_quantity by assumption. reflexivity.
      * rewrite remove_item_absent by exact Hmem. reflexivity.
Qed.

(* ===================================================================== *)
(** ** What the console takes *)

Lemma console_takes_plain (s : pystr) :
  forallb plain s = true -> console_takes s = true.
Proof.
  unfold console_takes. induction s as [|c s IH]; [reflexivity|].
  cbn [forallb]. intros H. apply Bool.andb_true_iff in H.
  destruct H as [Hc Hs]. unfold console_accepts at 1.
  rewrite Hc, (IH Hs). reflexivity.
Qed.

Lemma console_takes_app (a b : pystr) :
  console_takes (a ++ b) = console_takes a && console_takes b.
Proof. apply forallb_app. Qed.

Lemma print_plain (text : pystr) (next : printed) :
  forallb plain text = true ->
  print text next = (text ++ [10%N] ++ fst next, snd next).
Proof.
  intros H. unfold print. rewrite (console_takes_plain text H).
  destruct next. reflexivity.
Qed.

Lemma plain_uint_text (u : uint) : forallb plain (uint_text u) = true.
Proof. induction u; cbn [uint_text forallb]; try rewrite IHu; reflexivity. Qed.

Lemma plain_int_repr (z : Z) : forallb plain (int_repr z) = true.
Proof.
  unfold int_repr, int_text. destruct (Z.to_int z) as [u|u];
    cbn [forallb]; rewrite plain_uint_text; reflexivity.
Qed.

Lemma plain_repeat_space (n : nat) : forallb plain (repeat 32%N n) = true.
Proof. induction n as [|n IH]; [reflexivity|]. cbn [repeat forallb]. rewrite IH. reflexivity. Qed.

(** A line of the report is taken when the name is. *)
Lemma console_takes_line (item : pystr) (q : Z) :
  console_takes (ljust 20 item ++ str " -> " ++ rjust 5 (int_repr q))
  = console_takes item.
Proof.
  unfold ljust, rjust. rewrite !console_takes_app.
  rewrite (console_takes_plain (repeat 32%N _) (plain_repeat_space _)).
  rewrite (console_takes_plain (str " -> ") eq_refl).
  rewrite (console_takes_plain (repeat 32%N _) (plain_repeat_space _)).
  rewrite (console_takes_plain (int_repr q) (plain_int_repr q)).
  rewrite !Bool.andb_true_r. reflexivity.
Qed.

(** The fixed lines of the report always get through. *)
Lemma print_data_frame (w : world) :
  print_data w
  = let body :=
      if negb (py_truth (STOCK_DATA w)) then
        (str "No items in inventory" ++ [10%N] ++ report_foot, None)
      else
        match py_items (STOCK_DATA w) with
        | Raise e => ([], Some (Raised e))
        | Ok items => report_items items (report_foot, None)
        end in
    (report_head ++ fst body, snd body).
Proof.
  unfold print_data.
  rewrite (print_plain ([10%N] ++ banner)) by reflexivity.
  rewrite (print_plain (str "INVENTORY REPORT")) by reflexivity.
  rewrite (print_plain banner) by reflexivity.
  rewrite (print_plain (banner ++ [10%N]) ([], None)) by reflexivity.
  change ((banner ++ [10%N]) ++ [10%N] ++ fst ([] : pystr, @None raised))
    with report_foot.
  change (snd ([] : pystr, @None raised)) with (@None raised).
  rewrite (print_plain (str "No items in inventory")) by reflexivity.
  cbv zeta. cbn [fst snd].
  destruct (negb (py_truth (STOCK_DATA w))).
  - cbn [fst snd]. unfold report_head. rewrite <- !List.app_assoc. reflexivity.
  - cbn [fst snd]. unfold report_head. rewrite <- !List.app_assoc. reflexivity.
Qed.

(* ===================================================================== *)
(** ** A ledger that is no mapping *)

(** X11. When [STOCK_DATA] is no mapping, as after loading a JSON list, string
    or number, the functions raise to the caller and change nothing: a
    valid [add_item] and [check_low_items] raise [AttributeError];
    [print_data] prints its header and raises [AttributeError], unless the
    value is false, which it reports as an empty inventory; [get_qty] and
    [remove_item] raise [TypeError] on [None], a Boolean or a number. *)
Theorem calls_on_non_mapping (v : pyval) (fs : filesystem) :
  (forall d, v <> PDict d) ->
  (forall name qty n,
      name <> [] -> as_int qty = Some n -> 0 <= n ->
      add_item (PStr name) qty (with_stock v fs)
      = (Raise AttributeError, with_stock v fs)) /\
  (forall threshold,
      check_low_items threshold (with_stock v fs)
      = (Raise AttributeError, with_stock v fs)) /\
  print_data (with_stock v fs)
  = (if py_truth v then (report_head, Some (Raised AttributeError))
     else (report_head ++ str "No items in inventory" ++ [10%N] ++ report_foot,
           None)) /\
  ((forall l, v <> PList l) -> (forall s, v <> PStr s) ->
   forall name qty,
     get_qty name (with_stock v fs) = (Raise TypeError, with_stock v fs) /\
     remove_item name qty (with_stock v fs)
     = (Raise TypeError, with_stock v fs)).
Proof.
  intros Hv. split; [|split; [|split]].
  - intros name qty n Hname Hq Hn. unfold add_item.
    destruct name as [|c name]; [congruence|]. rewrite Hq.
    assert (Hlt : (n <? 0) = false) by (apply Z.ltb_ge; lia).
    rewrite Hlt. destruct v; try reflexivity. exfalso. eapply Hv. reflexivity.
  - intros threshold. destruct v; try reflexivity.
    exfalso. eapply Hv. reflexivity.
  - rewrite print_data_frame. unfold with_stock. cbn [STOCK_DATA].
    destruct (py_truth v) eqn:E; cbn [negb fst snd]; [|reflexivity].
    destruct v; cbn [py_items fst snd]; rewrite ?List.app_nil_r;
      try reflexivity.
    exfalso. eapply Hv. reflexivity.
  - intros Hl Hs name qty.
    destruct v; try (split; reflexivity); exfalso;
      [eapply Hs|eapply Hl|eapply Hv]; reflexivity.
Qed.

(* ===================================================================== *)
(** ** The report *)

Lemma length_ljust (width : nat) (s : pystr) :
  List.length (ljust width s) = Nat.max width (List.length s).
Proof.
  unfold ljust. rewrite length_app, repeat_length.
  destruct (Nat.le_ge_cases width (List.length s)) as [H|H];
    [rewrite Nat.max_r by exact H|rewrite Nat.max_l by exact H]; lia.
Qed.

Lemma length_rjust (width : nat) (s : pystr) :
  List.length (rjust width s) = Nat.max width (List.length s).
Proof.
  unfold rjust. rewrite length_app, repeat_length.
  destruct (Nat.le_ge_cases width (List.length s)) as [H|H];
    [rewrite Nat.max_r by exact H|rewrite Nat.max_l by exact H];
    unfold codepoint in *; lia.
Qed.

(** The lines of a ledger, as [print_data] writes them. *)
Lemma report_items_ledger (l : ledger) (next : printed) :
  Forall (fun kq => console_takes (fst kq) = true) l ->
  report_items (map (fun kq => (fst kq, PInt (snd kq))) l) next
  = (List.concat (map (fun kq => report_line (fst kq) (rjust 5 (int_repr (snd kq))))
                 l) ++ fst next, snd next).
Proof.
  induction 1 as [|[k q] l Hk _ IH]; [destruct next; reflexivity|].
  cbn [map report_items fst snd format_5d as_int List.concat].
  rewrite IH. unfold print. rewrite console_takes_line.
  cbn [fst] in Hk. rewrite Hk. unfold report_line.
  rewrite <- !List.app_assoc. reflexivity.
Qed.

(** X12. On a ledger of integer quantities whose names the console can
    encode, [print_data] does not raise and writes the header, one line
    for each item in the order of the ledger (the single line "No items in
    inventory" when there is none), and the footer. A line is the name,
    padded on the right to 20 characters and never cut, the arrow, the
    quantity padded on the left to 5 characters and never cut, and the
    end of line. *)
Theorem print_data_ledger (l : ledger) (fs : filesystem) :
  Forall (fun kq => console_takes (fst kq) = true) l ->
  print_data (with_stock (ledger_value l) fs)
  = (report_head
     ++ match l with
        | [] => str "No items in inventory" ++ [10%N]
        | _ :: _ =>
            List.concat (map (fun kq =>
                           report_line (fst kq) (rjust 5 (int_repr (snd kq))))
                        l)
        end
     ++ report_foot, None) /\
  (forall name q,
      List.length (report_line name (rjust 5 (int_repr q)))
      = (Nat.max 20 (List.length name) + 4
         + Nat.max 5 (List.length (int_repr q)) + 1)%nat /\
      firstn (List.length name) (report_line name (rjust 5 (int_repr q)))
      = name).
Proof.
  intros Hnames. split.
  - rewrite print_data_frame.
    unfold ledger_value, with_stock. cbn [STOCK_DATA py_truth].
    destruct l as [|kq l]; [reflexivity|].
    cbn [map negb py_items].
    change ((fst kq, PInt (snd kq))
            :: map (fun kq0 => (fst kq0, PInt (snd kq0))) l)
      with (map (fun kq0 => (fst kq0, PInt (snd kq0))) (kq :: l)).
    rewrite report_items_ledger by exact Hnames. reflexivity.
  - intros name q. unfold report_line. split.
    + rewrite !length_app, length_ljust, length_rjust. simpl. lia.
    + unfold ljust. rewrite <- !List.app_assoc.
      rewrite firstn_app, Nat.sub_diag, firstn_all. simpl.
      apply List.app_nil_r.
Qed.

(** X13. [print_data] stops at the first item whose line it cannot write:
    the header and the lines of the items before it are written, the line
    of the item and the footer are not. A quantity that is no integer
    stops it when the line is formatted, with [ValueError] for a string
    or a float and [TypeError] for [None], a list or a mapping, whatever
    the name; with an integer quantity, a name the console cannot encode
    stops it with [UnicodeEncodeError]. *)
Theorem print_data_stops (l : ledger) (k : pystr) (v : pyval) (rest : dict)
    (fs : filesystem) :
  Forall (fun kq => console_takes (fst kq) = true) l ->
  as_int v = None \/ console_takes k = false ->
  print_data
    (with_stock (PDict (map (fun kq => (fst kq, PInt (snd kq))) l
                        ++ (k, v) :: rest)) fs)
  = (report_head
     ++ List.concat (map (fun kq => report_line (fst kq) (rjust 5 (int_repr (snd kq))))
                    l),
     Some (Raised match v with
                  | PStr _ | PFloat _ => ValueError
                  | PNone | PList _ | PDict _ => TypeError
                  | PInt _ | PBool _ => UnicodeEncodeError
                  end)).
Proof.
  intros Hnames Hstop. rewrite print_data_frame.
  unfold with_stock. cbn [STOCK_DATA].
  assert (Htruth : py_truth (PDict (map (fun kq => (fst kq, PInt (snd kq))) l
                                    ++ (k, v) :: rest)) = true)
    by (destruct l; reflexivity).
  rewrite Htruth. cbn [negb py_items].
  assert (Hitems :
            report_items (map (fun kq => (fst kq, PInt (snd kq))) l
                          ++ (k, v) :: rest) (report_foot, None)
            = (List.concat (map (fun kq => report_line (fst kq)
                                        (rjust 5 (int_repr (snd kq)))) l),
               Some (Raised match v with
                            | PStr _ | PFloat _ => ValueError
                            | PNone | PList _ | PDict _ => TypeError
                            | PInt _ | PBool _ => UnicodeEncodeError
                            end))).
  { clear Htruth. induction Hnames as [|[k' q'] l Hk' _ IH].
    - cbn [map List.app report_items List.concat].
      destruct v as [|[|]|z| | | |]; cbn [format_5d as_int];
        try reflexivity;
        (destruct Hstop as [Hv|Hk]; [discriminate Hv|]);
        unfold print; rewrite console_takes_line, Hk; reflexivity.
    - cbn [map List.app report_items fst snd format_5d as_int List.concat].
      rewrite IH. unfold print. rewrite console_takes_line.
      cbn [fst] in Hk'. rewrite Hk'. unfold report_line.
      rewrite <- !List.app_assoc. reflexivity. }
  rewrite Hitems. reflexivity.
Qed.

(* ===================================================================== *)
(** ** The entry point and the log sink *)







(* ===================================================================== *)
(** ** Calls in a row and answers read backwards *)

(** X16. Two valid [add_item] calls for one name leave the ledger that one call
    with the sum of the quantities leaves. *)
Theorem add_item_twice (d : dict) (fs : filesystem) (name : pystr) (a b : Z) :
  name <> [] -> 0 <= a -> 0 <= b -> int_dict d ->
  (add_item (PStr name) (PInt a) ;;; add_item (PStr name) (PInt b))
    (with_stock (PDict d) fs)
  = add_item (PStr name) (PInt (a + b)) (with_stock (PDict d) fs).
Proof.
  intros Hname Ha Hb Hd. unfold bind.
  rewrite (add_item_valid d fs name (PInt a) a) by auto.
  rewrite (add_item_valid _ fs name (PInt b) b)
    by (auto; apply int_dict_set; exact Hd).
  rewrite (add_item_valid d fs name (PInt (a + b)) (a + b)) by (auto; lia).
  rewrite stored_set, pystr_eqb_refl, dict_set_twice.
  replace (stored name d + a + b) with (stored name d + (a + b)) by lia.
  reflexivity.
Qed.

(** X17. Two valid [remove_item] calls for an item in stock leave the ledger
    that one call with the sum of the quantities leaves, also when the
    first call has depleted the item and the second answers [False]. *)
Theorem remove_item_twice (d : dict) (fs : filesystem) (item : pystr)
    (q a b : Z) :
  dict_lookup item d = Some (PInt q) -> 0 <= a -> 0 <= b ->
  snd ((remove_item item (PInt a) ;;; remove_item item (PInt b))
         (with_stock (PDict d) fs))
  = snd (remove_item item (PInt (a + b)) (with_stock (PDict d) fs)).
Proof.
  intros Hl Ha Hb. unfold bind.
  rewrite (remove_item_run d fs item (PInt q) (PInt a) q a) by auto.
  rewrite (remove_item_run d fs item (PInt q) (PInt (a + b)) q (a + b))
    by (auto; lia).
  destruct (q - a <=? 0) eqn:E1.
  - apply Z.leb_le in E1.
    assert (E2 : (q - (a + b) <=? 0) = true) by (apply Z.leb_le; lia).
    rewrite E2. rewrite remove_item_absent by apply dict_mem_false_del.
    reflexivity.
  - apply Z.leb_gt in E1.
    rewrite (remove_item_run _ fs item (PInt (q - a)) (PInt b) (q - a) b)
      by (auto; apply dict_lookup_set_same).
    replace (q - a - b) with (q - (a + b)) by lia.
    destruct (q - (a + b) <=? 0); simpl.
    + rewrite dict_del_set_same. reflexivity.
    + rewrite dict_set_twice. reflexivity.
Qed.

(** X18. What the answer of [load_data] tells: [True] exactly when the file is
    there and its text is valid JSON, [False] exactly when the file is
    missing or its text is not valid JSON. *)
Theorem load_data_answer (w : world) (file : pystr) :
  (fst (load_data file w) = Ok true <->
   exists text v, fs_entry (disk w) file = FileText text /\
                  json_loads text = Ok v) /\
  (fst (load_data file w) = Ok false <->
   fs_entry (disk w) file = NoFile \/
   exists text, fs_entry (disk w) file = FileText text /\
                json_loads text = Raise JSONDecodeError).
Proof.
  unfold load_data, try_except, bind, read_text, lift, set_stock, ret.
  destruct (fs_entry (disk w) file) as [| | |text|b] eqn:E; simpl.
  - split; split; try discriminate; auto.
    intros [text [v [H _]]]. discriminate H.
  - split; split; try discriminate.
    + intros [text [v [H _]]]. discriminate H.
    + intros [H|[text [H _]]]; discriminate H.
  - split; split; try discriminate.
    + intros [text [v [H _]]]. discriminate H.
    + intros [H|[text [H _]]]; discriminate H.
  - destruct (json_loads_total text) as [[v Hv]|Hv]; rewrite Hv; simpl.
    + split; split; try discriminate; eauto.
      intros [H|[t [H H']]]; [discriminate H|].
      injection H as <-. congruence.
    + split; split; try discriminate; eauto.
      intros [t [v [H H']]]. injection H as <-. congruence.
  - destruct b; simpl; (split; split; try discriminate;
      [intros [text [v [H _]]]; discriminate H
      |intros [H|[text [H _]]]; discriminate H]).
Qed.

(** X19. [check_low_items] stops at the first quantity that cannot be compared
    with a number: with integers before it and a string, [None], a list
    or a mapping there, the call raises [TypeError] and the state is as
    before. *)
Theorem check_low_items_type_error (l : ledger) (k : pystr) (v : pyval)
    (rest : dict) (fs : filesystem) (threshold : Z) :
  as_int v = None -> (forall f, v <> PFloat f) ->
  check_low_items threshold
    (with_stock (PDict (map (fun kq => (fst kq, PInt (snd kq))) l
                        ++ (k, v) :: rest)) fs)
  = (Raise TypeError,
     with_stock (PDict (map (fun kq => (fst kq, PInt (snd kq))) l
                        ++ (k, v) :: rest)) fs).
Proof.
  intros Hv Hf. unfold check_low_items, bind, get_stock, lift, with_stock.
  simpl.
  assert (H : forall found,
             low_items (map (fun kq => (fst kq, PInt (snd kq))) l
                        ++ (k, v) :: rest) threshold found
             = Raise TypeError).
  { induction l as [|[k' q'] l IH]; intros found; simpl.
    - destruct v as [|[|]| |f| | |]; try discriminate Hv; try reflexivity.
      exfalso. apply (Hf f). reflexivity.
    - destruct (q' <? threshold); apply IH. }
  rewrite H. reflexivity.
Qed.

(* ===================================================================== *)
(** ** Runs of the model *)

(** The calls of [main] up to the report: the ledger and the two values
    printed. *)
Example main_ledger :
  let run :=
    add_item (PStr (str "apple")) (PInt 10) ;;;
    add_item (PStr (str "banana")) (PInt 5) ;;;
    add_item (PStr (str "orange")) (PInt 3) ;;;
    add_item (PStr (str "grape")) (PInt (-2)) ;;;
    add_item (PInt 123) (PInt 10) ;;;
    remove_item (str "apple") (PInt 3) ;;;
    remove_item (str "orange") (PInt 1) ;;;
    stock <- get_qty (str "apple") ;;
    low <- check_low_items 5 ;;
    ret (stock, low) in
  run (with_stock (PDict []) empty_disk)
  = (Ok (PInt 7, [str "orange"]),
     with_stock (PDict [(str "apple", PInt 7); (str "banana", PInt 5);
                        (str "orange", PInt 2)]) empty_disk).
Proof. reflexivity. Qed.

(** Removing more than the stock deletes the item. *)
Example remove_more_than_stock :
  (remove_item (str "apple") (PInt 100) ;;; get_qty (str "apple"))
    (with_stock (PDict [(str "apple", PInt 12)]) empty_disk)
  = (Ok (PInt 0), with_stock (PDict []) empty_disk).
Proof. reflexivity. Qed.

Example low_items_of_two :
  check_low_items 5
    (with_stock (ledger_value [(str "banana", 3); (str "kiwi", 10)]) empty_disk)
  = (Ok [str "banana"],
     with_stock (ledger_value [(str "banana", 3); (str "kiwi", 10)]) empty_disk).
Proof. reflexivity. Qed.

(** The text written for a ledger of two items. *)
Example dumps_of_two :
  json_dumps (ledger_value [(str "banana", 3); (str "kiwi", 10)])
  = str "{" ++ [10; 32; 32]%N ++ quoted (str "banana") ++ str ": 3,"
    ++ [10; 32; 32]%N ++ quoted (str "kiwi") ++ str ": 10"
    ++ [10]%N ++ str "}".
Proof. reflexivity. Qed.

(** Shapes [load_data] accepts as they come: a string, a number, a
    mapping with a negative, a textual and a repeated entry. *)
Example loads_shapes :
  json_loads (quoted (str "apple")) = Ok (PStr (str "apple")) /\
  json_loads (str " -5 ") = Ok (PInt (-5)) /\
  json_loads (str "{" ++ quoted (str "a") ++ str ": -1, "
              ++ quoted (str "b") ++ str ": " ++ quoted (str "x") ++ str ", "
              ++ quoted (str "a") ++ str ": true}")
  = Ok (PDict [(str "a", PBool true); (str "b", PStr (str "x"))]) /\
  json_loads (str "[1, 2,]") = Raise JSONDecodeError /\
  json_loads (str "01") = Raise JSONDecodeError.
Proof. repeat split; reflexivity. Qed.

End Ledger.

(* ===================================================================== *)
(** ** The theorems at concrete inputs *)

#[local] Existing Instance exact_float.
#[local] Existing Instance utf8_console.

(** C7 at the call [add_item(123, 10)] of [main]. *)
Lemma add_item_invalid_unchanged_witness :
  invalid_add_args (PInt 123) (PInt 10) /\
  add_item (PInt 123) (PInt 10)
    (with_stock (PDict [(str "apple", PInt 10)]) empty_disk)
  = (Ok tt, with_stock (PDict [(str "apple", PInt 10)]) empty_disk).
Proof.
  assert (H : invalid_add_args (PInt 123) (PInt 10))
    by (left; intros name E; discriminate E).
  split; [exact H|]. exact (add_item_invalid_unchanged _ _ _ H).
Defined.

(** C8 on the ledger [{"apple": 12}]: an absent item, then a negative
    quantity. *)
Lemma remove_item_refused_witness :
  remove_item (str "pear") (PInt 1)
    (with_stock (PDict [(str "apple", PInt 12)]) empty_disk)
  = (Ok false, with_stock (PDict [(str "apple", PInt 12)]) empty_disk) /\
  remove_item (str "apple") (PInt (-1))
    (with_stock (PDict [(str "apple", PInt 12)]) empty_disk)
  = (Ok false, with_stock (PDict [(str "apple", PInt 12)]) empty_disk).
Proof.
  split.
  - apply (proj1 (remove_item_refused [(str "apple", PInt 12)] empty_disk
                    (str "pear") (PInt 1))).
    reflexivity.
  - apply (proj2 (remove_item_refused [(str "apple", PInt 12)] empty_disk
                    (str "apple") (PInt (-1)))).
    + reflexivity.
    + right. exists (-1). split; [reflexivity|lia].
Defined.

(** C3 on the ledger [{"apple": 15}] with [remove_item("apple", 3)]. *)
Lemma remove_item_stocked_witness :
  exists d',
    remove_item (str "apple") (PInt 3)
      (with_stock (PDict [(str "apple", PInt 15)]) empty_disk)
    = (Ok true, with_stock (PDict d') empty_disk) /\
    (15 <= 3 -> d' = dict_del (str "apple") [(str "apple", PInt 15)] /\
                dict_lookup (str "apple") d' = None) /\
    (3 < 15 -> d' = dict_set (str "apple") (PInt (15 - 3))
                      [(str "apple", PInt 15)] /\
               dict_lookup (str "apple") d' = Some (PInt (15 - 3)) /\
               0 < 15 - 3).
Proof.
  apply (remove_item_stocked [(str "apple", PInt 15)] empty_disk (str "apple")
           (PInt 15) (PInt 3) 15 3);
    [reflexivity|reflexivity|lia|reflexivity|lia].
Defined.

(** C6 on a disk without files. *)
Lemma load_data_missing_file_witness :
  load_data (str "inventory.json")
    (with_stock (PDict [(str "apple", PInt 12)]) empty_disk)
  = (Ok false, with_stock (PDict []) empty_disk).
Proof.
  apply (load_data_missing_file
           (with_stock (PDict [(str "apple", PInt 12)]) empty_disk)
           (str "inventory.json")).
  reflexivity.
Defined.

(** C2 on a file that holds an opening brace and nothing else. *)
Lemma load_data_malformed_witness :
  load_data (str "inventory.json")
    (with_stock (PDict [(str "apple", PInt 12)])
       (disk_with (str "inventory.json") (str "{")))
  = (Ok false,
     with_stock (PDict [(str "apple", PInt 12)])
       (disk_with (str "inventory.json") (str "{"))).
Proof.
  apply (load_data_malformed
           (with_stock (PDict [(str "apple", PInt 12)])
              (disk_with (str "inventory.json") (str "{")))
           (str "inventory.json") (str "{")).
  - reflexivity.
  - intros v E.
    assert (H : json_loads (str "{") = Raise JSONDecodeError) by reflexivity.
    rewrite H in E. discriminate E.
Defined.

(** C10 on a file that holds the list [[1, -2, null]]. *)
Lemma load_data_any_shape_witness :
  load_data (str "inventory.json")
    (with_stock (PDict [(str "apple", PInt 12)])
       (disk_with (str "inventory.json") (str "[1, -2, null]")))
  = (Ok true,
     with_stock (PList [PInt 1; PInt (-2); PNone])
       (disk_with (str "inventory.json") (str "[1, -2, null]"))).
Proof.
  apply (load_data_any_shape
           (with_stock (PDict [(str "apple", PInt 12)])
              (disk_with (str "inventory.json") (str "[1, -2, null]")))
           (str "inventory.json") (str "[1, -2, null]")
           (PList [PInt 1; PInt (-2); PNone])).
  - reflexivity.
  - reflexivity.
Defined.

(** C5 on [add_item("apple", 10); add_item("apple", 5)]. *)
Lemma get_qty_after_adds_witness :
  exists w,
    add_all [(str "apple", 10); (str "apple", 5)]
      (with_stock (PDict []) empty_disk) = (Ok tt, w) /\
    get_qty (str "apple") w
    = (Ok (PInt (added (str "apple") [(str "apple", 10); (str "apple", 5)])), w)
    /\ ((forall q, ~ In (str "apple", q) [(str "apple", 10); (str "apple", 5)]) ->
        get_qty (str "apple") w = (Ok (PInt 0), w)).
Proof.
  apply (get_qty_after_adds [(str "apple", 10); (str "apple", 5)] empty_disk
           (str "apple")).
  constructor; [split; [discriminate|simpl; lia]|].
  constructor; [split; [discriminate|simpl; lia]|].
  constructor.
Defined.

(** C1, amended, on the state after [add_item("apple", 10)]. *)
Lemma guarded_states_positive_witness :
  reachable_guarded (with_stock (PDict [(str "apple", PInt 10)]) empty_disk) /\
  stored_positive
    (STOCK_DATA (with_stock (PDict [(str "apple", PInt 10)]) empty_disk)).
Proof.
  assert (H : reachable_guarded
                (with_stock (PDict [(str "apple", PInt 10)]) empty_disk)).
  { apply (guarded_add (with_stock (PDict []) empty_disk)
             (PStr (str "apple")) (PInt 10) (Ok tt)).
    - apply guarded_empty.
    - intros [name [d [_ [_ [E _]]]]]. discriminate E.
    - reflexivity. }
  split; [exact H|]. exact (guarded_states_positive _ H).
Defined.

(** C1 as stated fails: [add_item("apple", 0)] on the empty ledger stores
    the quantity zero. *)
Lemma zero_quantity_reachable :
  ~ (forall w, reachable w -> stored_positive (STOCK_DATA w)).
Proof.
  intros H.
  assert (Hr : reachable (with_stock (PDict [(str "apple", PInt 0)]) empty_disk)).
  { apply (reach_add (with_stock (PDict []) empty_disk)
             (PStr (str "apple")) (PInt 0) (Ok tt)).
    - apply reach_empty.
    - reflexivity. }
  destruct (H _ Hr) as [d [E Hd]]. simpl in E. injection E as <-.
  inversion Hd as [|kv d' [q [Hq Hpos]] Hrest]; subst.
  simpl in Hq. injection Hq as <-. lia.
Qed.





(** A directory in place of the file, and a file that is not UTF-8. *)
Lemma load_data_uncaught_witness :
  load_data default_file
    (with_stock (PDict [(str "apple", PInt 7)]) (locked_disk Unreadable))
  = (Raise OSError,
     with_stock (PDict [(str "apple", PInt 7)]) (locked_disk Unreadable)) /\
  load_data default_file
    (with_stock (PDict [(str "apple", PInt 7)]) (locked_disk Undecodable))
  = (Raise UnicodeDecodeError,
     with_stock (PDict [(str "apple", PInt 7)]) (locked_disk Undecodable)).
Proof.
  split.
  - apply (proj1 (load_data_uncaught
                    (with_stock (PDict [(str "apple", PInt 7)])
                       (locked_disk Unreadable)) default_file)).
    reflexivity.
  - apply (proj2 (load_data_uncaught
                    (with_stock (PDict [(str "apple", PInt 7)])
                       (locked_disk Undecodable)) default_file)).
    reflexivity.
Defined.

(** [add_item("kiwi", 2)] on a ledger of apple and banana. *)
Lemma add_item_one_entry_witness :
  exists d',
    add_item (PStr (str "kiwi")) (PInt 2)
      (with_stock (PDict [(str "apple", PInt 7); (str "banana", PInt 5)])
         empty_disk)
    = (Ok tt, with_stock (PDict d') empty_disk) /\
    map fst d' = [str "apple"; str "banana"; str "kiwi"] /\
    dict_lookup (str "kiwi") d' = Some (PInt 2) /\
    (forall k, k <> str "kiwi" ->
               dict_lookup k d'
               = dict_lookup k [(str "apple", PInt 7); (str "banana", PInt 5)]).
Proof.
  apply (add_item_one_entry
           [(str "apple", PInt 7); (str "banana", PInt 5)] empty_disk
           (str "kiwi") (PInt 2) 2).
  - discriminate.
  - reflexivity.
  - lia.
  - intros k v H. simpl in H.
    destruct (pystr_eqb k (str "apple")); [injection H as <-; eauto|].
    destruct (pystr_eqb k (str "banana")); [injection H as <-; eauto|].
    discriminate H.
Defined.

(** [remove_item("apple", 7)] on a ledger of apple and banana. *)
Lemma remove_item_one_entry_witness :
  exists d',
    remove_item (str "apple") (PInt 7)
      (with_stock (PDict [(str "apple", PInt 7); (str "banana", PInt 5)])
         empty_disk)
    = (Ok true, with_stock (PDict d') empty_disk) /\
    map fst d' = [str "banana"] /\
    (forall k, k <> str "apple" ->
               dict_lookup k d'
               = dict_lookup k [(str "apple", PInt 7); (str "banana", PInt 5)]).
Proof.
  apply (remove_item_one_entry
           [(str "apple", PInt 7); (str "banana", PInt 5)] empty_disk
           (str "apple") (PInt 7) (PInt 7) 7 7);
    [reflexivity|reflexivity|reflexivity|lia].
Defined.

(** Adding 4 apples to 7 and removing them, adding 4 kiwis to none and
    removing them. *)
Lemma add_then_remove_restores_witness :
  (add_item (PStr (str "apple")) (PInt 4)
     (with_stock (PDict [(str "apple", PInt 7)]) empty_disk)
   = (Ok tt, with_stock (PDict [(str "apple", PInt 11)]) empty_disk)) /\
  bind (add_item (PStr (str "apple")) (PInt 4))
       (fun _ => remove_item (str "apple") (PInt 4))
       (with_stock (PDict [(str "apple", PInt 7)]) empty_disk)
  = (Ok true, with_stock (PDict [(str "apple", PInt 7)]) empty_disk) /\
  bind (add_item (PStr (str "kiwi")) (PInt 4))
       (fun _ => remove_item (str "kiwi") (PInt 4))
       (with_stock (PDict [(str "apple", PInt 7)]) empty_disk)
  = (Ok true, with_stock (PDict [(str "apple", PInt 7)]) empty_disk).
Proof.
  split; [reflexivity|]. split.
  - apply (add_then_remove_restores [(str "apple", PInt 7)] empty_disk
             (str "apple") 4); [discriminate|lia|].
    right. exists 7. split; [reflexivity|lia].
  - apply (add_then_remove_restores [(str "apple", PInt 7)] empty_disk
             (str "kiwi") 4); [discriminate|lia|].
    left. reflexivity.
Defined.

(** The empty ledger is in good order, and stays so through calls that
    are refused, accepted and depleting. *)
Lemma tidy_ledgers_closed_witness :
  tidy [] /\
  exists d',
    run_calls [CallAdd (PStr (str "apple")) (PInt 0);
               CallAdd (PInt 123) (PInt 10);
               CallAdd (PStr (str "kiwi")) (PInt 3);
               CallRemove (str "kiwi") (PInt 5);
               CallRemove (str "pear") (PStr (str "x"))]
      (with_stock (PDict []) empty_disk)
    = with_stock (PDict d') empty_disk /\ tidy d'.
Proof.
  assert (H : tidy []) by (split; constructor).
  split; [exact H|].
  apply (proj2 (proj2 (tidy_ledgers_closed [] empty_disk H))).
Defined.

(** The ledger after loading the JSON list [[1]]. *)
Lemma calls_on_non_mapping_witness :
  add_item (PStr (str "apple")) (PInt 1) (with_stock (PList [PInt 1]) empty_disk)
  = (Raise AttributeError, with_stock (PList [PInt 1]) empty_disk) /\
  check_low_items 5 (with_stock (PList [PInt 1]) empty_disk)
  = (Raise AttributeError, with_stock (PList [PInt 1]) empty_disk) /\
  print_data (with_stock (PList [PInt 1]) empty_disk)
  = (report_head, Some (Raised AttributeError)).
Proof.
  assert (H : forall d, PList [PInt 1] <> PDict d)
    by (intros d E; discriminate E).
  destruct (calls_on_non_mapping (PList [PInt 1]) empty_disk H)
    as [Hadd [Hlow [Hprint _]]].
  split; [apply (Hadd (str "apple") (PInt 1) 1);
          [discriminate|reflexivity|lia]|].
  split; [apply Hlow|exact Hprint].
Defined.

(** The report of two items on a console in UTF-8. *)
Lemma print_data_ledger_witness :
  Forall (fun kq => console_takes (fst kq) = true)
         [(str "apple", 7); ([233; 112; 105; 99; 101]%N, 12)] /\
  print_data
    (with_stock (PDict [(str "apple", PInt 7);
                        ([233; 112; 105; 99; 101]%N, PInt 12)]) empty_disk)
  = (report_head
     ++ report_line (str "apple") (rjust 5 (int_repr 7))
     ++ report_line [233; 112; 105; 99; 101]%N (rjust 5 (int_repr 12))
     ++ report_foot, None).
Proof.
  assert (H : Forall (fun kq => console_takes (fst kq) = true)
                     [(str "apple", 7); ([233; 112; 105; 99; 101]%N, 12)])
    by (repeat constructor).
  split; [exact H|].
  exact (proj1 (print_data_ledger
                  [(str "apple", 7); ([233; 112; 105; 99; 101]%N, 12)]
                  empty_disk H)).
Defined.

(** A ledger whose second quantity is a string, and one whose second name
    is a lone surrogate, on a console in UTF-8. *)
Lemma print_data_stops_witness :
  print_data
    (with_stock (PDict [(str "apple", PInt 7); (str "banana", PStr (str "x"));
                        (str "kiwi", PInt 1)]) empty_disk)
  = (report_head ++ report_line (str "apple") (rjust 5 (int_repr 7)),
     Some (Raised ValueError)) /\
  print_data
    (with_stock (PDict [(str "apple", PInt 7); ([55357%N], PInt 1);
                        (str "kiwi", PInt 1)]) empty_disk)
  = (report_head ++ report_line (str "apple") (rjust 5 (int_repr 7)),
     Some (Raised UnicodeEncodeError)).
Proof.
  assert (H : Forall (fun kq => console_takes (fst kq) = true)
                     [(str "apple", 7)]) by (repeat constructor).
  rewrite <- (List.app_nil_r (report_line (str "apple") (rjust 5 (int_repr 7)))).
  split.
  - exact (print_data_stops [(str "apple", 7)] (str "banana") (PStr (str "x"))
             [(str "kiwi", PInt 1)] empty_disk H (or_introl eq_refl)).
  - exact (print_data_stops [(str "apple", 7)] [55357%N] (PInt 1)
             [(str "kiwi", PInt 1)] empty_disk H (or_intror eq_refl)).
Defined.



(** Ten apples and five more, against fifteen at once. *)
Lemma add_item_twice_witness :
  bind (add_item (PStr (str "apple")) (PInt 10))
       (fun _ => add_item (PStr (str "apple")) (PInt 5))
       (with_stock (PDict [(str "banana", PInt 5)]) empty_disk)
  = add_item (PStr (str "apple")) (PInt (10 + 5))
      (with_stock (PDict [(str "banana", PInt 5)]) empty_disk).
Proof.
  apply (add_item_twice [(str "banana", PInt 5)] empty_disk (str "apple") 10 5);
    [discriminate|lia|lia|].
  intros k v H. simpl in H.
  destruct (pystr_eqb k (str "banana")); [injection H as <-; eauto|].
  discriminate H.
Defined.

(** Nine of seven apples removed and three more, against twelve at once. *)
Lemma remove_item_twice_witness :
  snd (bind (remove_item (str "apple") (PInt 9))
            (fun _ => remove_item (str "apple") (PInt 3))
            (with_stock (PDict [(str "apple", PInt 7)]) empty_disk))
  = snd (remove_item (str "apple") (PInt (9 + 3))
           (with_stock (PDict [(str "apple", PInt 7)]) empty_disk)).
Proof.
  apply (remove_item_twice [(str "apple", PInt 7)] empty_disk (str "apple")
           7 9 3); [reflexivity|lia|lia].
Defined.

(** A ledger whose second quantity is [None]. *)
Lemma check_low_items_type_error_witness :
  check_low_items 5
    (with_stock (PDict [(str "apple", PInt 7); (str "banana", PNone)])
       empty_disk)
  = (Raise TypeError,
     with_stock (PDict [(str "apple", PInt 7); (str "banana", PNone)])
       empty_disk).
Proof.
  apply (check_low_items_type_error [(str "apple", 7)] (str "banana") PNone []
           empty_disk 5).
  - reflexivity.
  - intros f E. discriminate E.
Defined.
